(** * Feature materialisation of [examples/benchmark_ehrshot_xgboost.ipynb]

    The notebook's cell 11 ("Build Features and Labels") turns the task
    samples into a dense multi-hot matrix [X], a label vector [y], a vector
    of split tags [splits], and the three partitions train / val / test.

    The cell is embedded as a function from the notebook's global variables
    to the notebook's global variables, in an exception monad: NumPy arrays
    are lists ([X] is the list of its rows), Python integers are [Z], the
    NumPy operations the cell calls are the functions of module [np], with
    the exceptions they raise.

    What the cell reads from the library objects is taken as input:
    - [num_features] is [samples.input_processors["feature"]._next_index],
      a Python integer;
    - a sample is the triple of [sample["feature"].numpy()] (a 1-d array of
      64-bit integers: no arithmetic is done on them, so they are plain
      [Z]), [sample["label"].item()] (an integer class index) and
      [sample["split"]] (a string);
    - [samples] is the finite sequence the [for] loop iterates over; reading
      a sample does not change it, and the cell writes to none.

    Every row is a fresh [np.zeros] array, so no two rows of [X] share
    storage; [y[y >= 1] = 1] writes into the array [y] that the partitions
    are then taken from. Split tags are compared as strings. *)

From Stdlib Require Import ZArith String List Sorted Lia.
From stdpp Require Import base tactics option list strings.

Local Open Scope Z_scope.

(** ** Exceptions *)

Inductive exn : Type :=
| ValueError_negative_dimensions
    (* np.zeros(n), n < 0: "negative dimensions are not allowed" *)
| IndexError_out_of_bounds (index size : Z)
    (* a[idx] = v: "index {index} is out of bounds for axis 0 with size {size}" *)
| IndexError_boolean_mismatch (size mask_size : nat).
    (* a[mask]: "boolean index did not match indexed array along axis 0" *)

Inductive res (A : Type) : Type :=
| Ok (a : A)
| Raise (e : exn).
Arguments Ok {A} a.
Arguments Raise {A} e.

#[export] Instance res_ret : MRet res := fun A a => Ok a.
#[export] Instance res_bind : MBind res := fun A B f m =>
  match m with
  | Ok a => f a
  | Raise e => Raise e
  end.

(** ** The NumPy operations of the cell *)

Module np.

(** [np.zeros(n, dtype=int)], for the sizes NumPy can allocate. (Beyond
    them [np.zeros] raises too, "array is too big" or MemoryError; that
    path is left out, so what is stated of completing runs is stated for
    sizes whose rows fit in memory.) *)
Definition zeros (n : Z) : res (list Z) :=
  if decide (n < 0) then Raise ValueError_negative_dimensions
  else Ok (replicate (Z.to_nat n) 0).

(** One entry of an integer index array against an axis of length [size]:
    [-size <= i < 0] counts from the end, anything else outside
    [0, size) raises. *)
Definition check_index (size i : Z) : res nat :=
  if decide (i < - size ∨ size ≤ i) then Raise (IndexError_out_of_bounds i size)
  else Ok (Z.to_nat (if decide (i < 0) then i + size else i)).

(** The entries of an index array, in order: the first one out of bounds
    raises. (The array being written is dropped with the exception, so
    entries written before it are never seen.) *)
Fixpoint check_indices (size : Z) (idx : list Z) : res (list nat) :=
  match idx with
  | [] => Ok []
  | i :: idx' =>
      j ← check_index size i;
      js ← check_indices size idx';
      Ok (j :: js)
  end.

(** [a[idx] = v] with an integer index array [idx] and a scalar [v] *)
Definition setitem_index (a : list Z) (idx : list Z) (v : Z) : res (list Z) :=
  js ← check_indices (Z.of_nat (length a)) idx;
  Ok (foldl (fun a' j => <[j := v]> a') a js).

(** [np.array(l)]: a list of scalars becomes a 1-d array, a list of rows of
    one length a 2-d array, kept here as the list of its rows. *)
Definition array {A : Type} (l : list A) : list A := l.

(** [a >= c], elementwise *)
Definition ge (a : list Z) (c : Z) : list bool :=
  map (fun v => bool_decide (c ≤ v)) a.

(** [a == c], elementwise, on an array of strings *)
Definition eq (a : list string) (c : string) : list bool :=
  map (fun s => bool_decide (s = c)) a.

(** The rows of [a] at which the mask holds. *)
Fixpoint select {A : Type} (mask : list bool) (a : list A) : list A :=
  match mask, a with
  | b :: mask', x :: a' => if b then x :: select mask' a' else select mask' a'
  | _, _ => []
  end.

(** [a[mask]] with a boolean array [mask] *)
Definition getitem_mask {A : Type} (a : list A) (mask : list bool) : res (list A) :=
  if decide (length mask = length a) then Ok (select mask a)
  else Raise (IndexError_boolean_mismatch (length a) (length mask)).

(** [a[mask] = v] with a boolean array [mask] and a scalar [v] *)
Definition setitem_mask {A : Type} (a : list A) (mask : list bool) (v : A) : res (list A) :=
  if decide (length mask = length a) then Ok (zip_with (fun (b : bool) x => if b then v else x) mask a)
  else Raise (IndexError_boolean_mismatch (length a) (length mask)).

End np.

(** ** Samples and the notebook's variables *)

Record Sample : Type := mkSample {
  feature : list Z;   (* sample["feature"].numpy() *)
  label : Z;          (* sample["label"].item() *)
  split : string      (* sample["split"] *)
}.

(** The variables cell 11 assigns. *)
Record Globals : Type := mkGlobals {
  X : list (list Z);
  y : list Z;
  splits : list string;
  X_train : list (list Z);
  y_train : list Z;
  X_val : list (list Z);
  y_val : list Z;
  X_test : list (list Z);
  y_test : list Z
}.

(** ** Cell 11

    The statements of the cell, in order; the three [print] calls at its end
    only show the shapes of the partitions and are left out. *)

(** [X, y, splits = [], [], []] *)
Definition init_lists (g : Globals) : Globals :=
  mkGlobals [] [] [] (X_train g) (y_train g) (X_val g) (y_val g) (X_test g) (y_test g).

(** [X.append(vec); y.append(...); splits.append(...)] *)
Definition append_sample (g : Globals) (vec : list Z) (l : Z) (s : string) : Globals :=
  mkGlobals (X g ++ [vec]) (y g ++ [l]) (splits g ++ [s])
            (X_train g) (y_train g) (X_val g) (y_val g) (X_test g) (y_test g).

(** The body of [for sample in samples]. *)
Definition loop_body (num_features : Z) (g : Globals) (sample : Sample) : res Globals :=
  vec ← np.zeros num_features;
  vec ← np.setitem_index vec (feature sample) 1;
  Ok (append_sample g vec (label sample) (split sample)).

(** [for x in xs: body]; an exception leaves the loop. *)
Fixpoint for_each {S A : Type} (body : S -> A -> res S) (s : S) (xs : list A) : res S :=
  match xs with
  | [] => Ok s
  | x :: xs' => s' ← body s x; for_each body s' xs'
  end.

(** [if task.startswith("lab_"): y[y >= 1] = 1] *)
Definition binarize (task : string) (y : list Z) : res (list Z) :=
  if String.prefix "lab_" task then np.setitem_mask y (np.ge y 1) 1 else Ok y.

Definition cell11 (num_features : Z) (task : string) (samples : list Sample)
    (g : Globals) : res Globals :=
  let g := init_lists g in
  g ← for_each (loop_body num_features) g samples;
  let X := np.array (X g) in
  let y := np.array (y g) in
  let splits := np.array (splits g) in
  y ← binarize task y;
  X_train ← np.getitem_mask X (np.eq splits "train");
  y_train ← np.getitem_mask y (np.eq splits "train");
  X_val ← np.getitem_mask X (np.eq splits "val");
  y_val ← np.getitem_mask y (np.eq splits "val");
  X_test ← np.getitem_mask X (np.eq splits "test");
  y_test ← np.getitem_mask y (np.eq splits "test");
  Ok (mkGlobals X y splits X_train y_train X_val y_val X_test y_test).

(** A notebook in which the cell has not run yet. *)
Definition g0 : Globals := mkGlobals [] [] [] [] [] [] [] [] [].

(** Three samples over three features, two for training and one for test. *)
Definition scenario : list Sample :=
  [ mkSample [0; 2] 0 "train"; mkSample [1] 2 "test"; mkSample [] 0 "train" ].

(** ** Vocabulary of the properties *)

(** An index NumPy accepts on an axis of length [size]. *)
Definition valid_index (size i : Z) : Prop := - size ≤ i < size.

(** The position it denotes. *)
Definition position (size i : Z) : nat :=
  Z.to_nat (if decide (i < 0) then i + size else i).

(** The two statements of the loop body that build the row of a sample:
    [vec = np.zeros(num_features, dtype=int)], then [vec[idx] = 1]. *)
Definition multi_hot (num_features : Z) (idx : list Z) : res (list Z) :=
  vec ← np.zeros num_features; np.setitem_index vec idx 1.

(** The row they build when nothing is raised. *)
Definition row_of (num_features : Z) (idx : list Z) : list Z :=
  foldl (fun a' j => <[j := 1]> a') (replicate (Z.to_nat num_features) 0)
        (map (position num_features) idx).

(** The rows of a sequence of samples, in order; the first sample whose
    row cannot be built raises. *)
Fixpoint rows_of (num_features : Z) (samples : list Sample) : res (list (list Z)) :=
  match samples with
  | [] => Ok []
  | s :: samples' =>
      r ← multi_hot num_features (feature s);
      rs ← rows_of num_features samples';
      Ok (r :: rs)
  end.

(** What [y[y >= 1] = 1] leaves at a position that held [l]. *)
Definition threshold (task : string) (l : Z) : Z :=
  if String.prefix "lab_" task then (if bool_decide (1 ≤ l) then 1 else l) else l.

(** The variables after a run whose loop built [rows]. *)
Definition outputs (task : string) (rows : list (list Z)) (samples : list Sample) : Globals :=
  let y := map (threshold task) (map label samples) in
  let splits := map split samples in
  mkGlobals rows y splits
    (np.select (np.eq splits "train") rows) (np.select (np.eq splits "train") y)
    (np.select (np.eq splits "val") rows) (np.select (np.eq splits "val") y)
    (np.select (np.eq splits "test") rows) (np.select (np.eq splits "test") y).

(** Every feature index of the sample is one NumPy accepts. *)
Definition valid_sample (num_features : Z) (s : Sample) : Prop :=
  Forall (valid_index num_features) (feature s).

(** The positions at which a mask holds, ascending ([np.flatnonzero]). *)
Fixpoint flatnonzero (mask : list bool) : list nat :=
  match mask with
  | [] => []
  | b :: mask' => (if b then [0%nat] else []) ++ map S (flatnonzero mask')
  end.

(** [part] holds the entries of [a] at the positions [idxs], in that order. *)
Definition taken_at {A : Type} (a : list A) (idxs : list nat) (part : list A) : Prop :=
  Forall2 (fun k x => a !! k = Some x) idxs part.

(** The positions of the rows tagged [name]. *)
Definition tagged (name : string) (tags : list string) : list nat :=
  flatnonzero (np.eq tags name).

(** Every feature index of the sample is a column number. *)
Definition in_range_sample (num_features : Z) (s : Sample) : Prop :=
  Forall (fun i => 0 ≤ i < num_features) (feature s).

(** The binarized label: for a task whose name starts with "lab_", 1 where
    the label is at least 1 and 0 elsewhere; the label itself for any other
    task. *)
Definition binarized_label (task : string) (l : Z) : Z :=
  if String.prefix "lab_" task then (if bool_decide (1 ≤ l) then 1 else 0) else l.

(** C5 as it is stated: a feature index outside [[0, num_features)] makes
    the cell raise the out-of-bounds IndexError. *)
Definition out_of_range_raises (n : Z) (task : string) (ss : list Sample) (g : Globals) : Prop :=
  forall s i, s ∈ ss -> i ∈ feature s -> ~ (0 ≤ i < n) ->
    exists i' size, cell11 n task ss g = Raise (IndexError_out_of_bounds i' size).

(** The tags the cell makes a partition for. *)
Definition known_tag (t : string) : Prop := t = "train" \/ t = "val" \/ t = "test".

(** C4 as it is stated: every row is in some partition, and the partition
    sizes add up to the number of samples. *)
Definition partitions_cover (n : Z) (task : string) (ss : list Sample) (g : Globals) : Prop :=
  forall out, cell11 n task ss g = Ok out ->
    (forall k, (k < length ss)%nat ->
       k ∈ tagged "train" (splits out) \/ k ∈ tagged "val" (splits out)
       \/ k ∈ tagged "test" (splits out)) /\
    (length (X_train out) + length (X_val out) + length (X_test out) = length ss)%nat.

(** [Xp] and [yp] are the rows and labels of the samples tagged [name], in
    the order of the sample sequence. *)
Definition partition_in_order (ss : list Sample) (out : Globals) (name : string)
    (Xp : list (list Z)) (yp : list Z) : Prop :=
  exists idxs : list nat,
    StronglySorted lt idxs /\
    (forall k, k ∈ idxs <-> exists s, ss !! k = Some s /\ split s = name) /\
    taken_at (X out) idxs Xp /\
    taken_at (y out) idxs yp.

(** A sample with each feature index kept once. *)
Definition dedup_features (s : Sample) : Sample :=
  mkSample (remove_dups (feature s)) (label s) (split s).

(** ** Cell 1

    [pyhealth_path = os.path.dirname(os.getcwd())] is taken as input, with
    [sys.path] as the state:
    [if pyhealth_path not in sys.path: sys.path.insert(0, pyhealth_path)]. *)
Definition cell1 (pyhealth_path : string) (sys_path : list string) : list string :=
  if bool_decide (pyhealth_path ∈ sys_path) then sys_path
  else pyhealth_path :: sys_path.

(** ** Cell 11, statement by statement

    A statement takes the notebook's variables to the variables it leaves
    and the exception it raised, if any: what an exception leaves is what
    the notebook holds when the cell stops. *)
Definition stmt : Type := Globals -> Globals * option exn.

Definition skip : stmt := fun g => (g, None).

(** [s1; s2]: an exception in [s1] ends the cell. *)
Definition then_stmt (s1 s2 : stmt) : stmt := fun g =>
  match s1 g with
  | (g', None) => s2 g'
  | (g', Some e) => (g', Some e)
  end.

(** [v = e]: the right-hand side is evaluated before [v] is bound, so an
    exception in it changes no variable. *)
Definition assign {A : Type} (e : Globals -> res A) (set : Globals -> A -> Globals) : stmt :=
  fun g =>
    match e g with
    | Ok a => (set g a, None)
    | Raise err => (g, Some err)
    end.

Definition set_X (g : Globals) (v : list (list Z)) : Globals :=
  mkGlobals v (y g) (splits g) (X_train g) (y_train g) (X_val g) (y_val g) (X_test g) (y_test g).
Definition set_y (g : Globals) (v : list Z) : Globals :=
  mkGlobals (X g) v (splits g) (X_train g) (y_train g) (X_val g) (y_val g) (X_test g) (y_test g).
Definition set_splits (g : Globals) (v : list string) : Globals :=
  mkGlobals (X g) (y g) v (X_train g) (y_train g) (X_val g) (y_val g) (X_test g) (y_test g).
Definition set_X_train (g : Globals) (v : list (list Z)) : Globals :=
  mkGlobals (X g) (y g) (splits g) v (y_train g) (X_val g) (y_val g) (X_test g) (y_test g).
Definition set_y_train (g : Globals) (v : list Z) : Globals :=
  mkGlobals (X g) (y g) (splits g) (X_train g) v (X_val g) (y_val g) (X_test g) (y_test g).
Definition set_X_val (g : Globals) (v : list (list Z)) : Globals :=
  mkGlobals (X g) (y g) (splits g) (X_train g) (y_train g) v (y_val g) (X_test g) (y_test g).
Definition set_y_val (g : Globals) (v : list Z) : Globals :=
  mkGlobals (X g) (y g) (splits g) (X_train g) (y_train g) (X_val g) v (X_test g) (y_test g).
Definition set_X_test (g : Globals) (v : list (list Z)) : Globals :=
  mkGlobals (X g) (y g) (splits g) (X_train g) (y_train g) (X_val g) (y_val g) v (y_test g).
Definition set_y_test (g : Globals) (v : list Z) : Globals :=
  mkGlobals (X g) (y g) (splits g) (X_train g) (y_train g) (X_val g) (y_val g) (X_test g) v.

(** One turn of the loop: the two statements that can raise come before
    the three [append] calls, so an exception leaves the lists as they
    were. *)
Definition body_stmt (num_features : Z) (sample : Sample) : stmt := fun g =>
  match loop_body num_features g sample with
  | Ok g' => (g', None)
  | Raise e => (g, Some e)
  end.

(** [for x in xs: body] *)
Fixpoint for_stmt {A : Type} (body : A -> stmt) (xs : list A) : stmt := fun g =>
  match xs with
  | [] => (g, None)
  | x :: xs' =>
      match body x g with
      | (g', None) => for_stmt body xs' g'
      | (g', Some e) => (g', Some e)
      end
  end.

(** [if task.startswith("lab_"): y[y >= 1] = 1] *)
Definition binarize_stmt (task : string) : stmt :=
  if String.prefix "lab_" task
  then assign (fun g => np.setitem_mask (y g) (np.ge (y g) 1) 1) set_y
  else skip.

(** [X = np.array(X); y = np.array(y); splits = np.array(splits)] *)
Definition arrays_stmt : stmt :=
  then_stmt (assign (fun g => Ok (np.array (X g))) set_X)
  (then_stmt (assign (fun g => Ok (np.array (y g))) set_y)
             (assign (fun g => Ok (np.array (splits g))) set_splits)).

(** The six assignments [X_train = X[splits == "train"]] to
    [y_test = y[splits == "test"]]. *)
Definition partitions_stmt : stmt :=
  then_stmt (assign (fun g => np.getitem_mask (X g) (np.eq (splits g) "train")) set_X_train)
  (then_stmt (assign (fun g => np.getitem_mask (y g) (np.eq (splits g) "train")) set_y_train)
  (then_stmt (assign (fun g => np.getitem_mask (X g) (np.eq (splits g) "val")) set_X_val)
  (then_stmt (assign (fun g => np.getitem_mask (y g) (np.eq (splits g) "val")) set_y_val)
  (then_stmt (assign (fun g => np.getitem_mask (X g) (np.eq (splits g) "test")) set_X_test)
             (assign (fun g => np.getitem_mask (y g) (np.eq (splits g) "test")) set_y_test))))).

Definition run_cell11 (num_features : Z) (task : string) (samples : list Sample) : stmt :=
  then_stmt (fun g => (init_lists g, None))
  (then_stmt (for_stmt (body_stmt num_features) samples)
  (then_stmt arrays_stmt
  (then_stmt (binarize_stmt task) partitions_stmt))).

(** ** More vocabulary *)

(** [vec.sum()] *)
Definition row_sum (row : list Z) : Z := foldr Z.add 0 row.

(** Two samples with the same label and tag whose feature indices denote
    the same columns. *)
Definition same_columns (num_features : Z) (s1 s2 : Sample) : Prop :=
  label s1 = label s2 /\ split s1 = split s2 /\
  forall k : nat, k ∈ map (position num_features) (feature s1)
                  <-> k ∈ map (position num_features) (feature s2).

(** The samples tagged [name], in order. *)
Definition with_tag (name : string) (ss : list Sample) : list Sample :=
  filter (fun s => split s = name) ss.

(** The samples whose tag is none of the three the cell selects. *)
Definition untagged (ss : list Sample) : list Sample :=
  filter (fun s => split s <> "train" /\ split s <> "val" /\ split s <> "test") ss.

(** The cell completes on these samples: the size is not negative unless
    there is no sample, and every feature index is one NumPy accepts. *)
Definition completes (num_features : Z) (ss : list Sample) : Prop :=
  (ss = [] \/ 0 ≤ num_features) /\ Forall (valid_sample num_features) ss.

(** * Properties *)

Example cell11_scenario :
  cell11 3 "lab_anemia" scenario g0
  = Ok (mkGlobals [[1; 0; 1]; [0; 1; 0]; [0; 0; 0]] [0; 1; 0] ["train"; "test"; "train"]
          [[1; 0; 1]; [0; 0; 0]] [0; 0] [] [] [[0; 1; 0]] [1]).
Proof. reflexivity. Qed.

(** ** The exception monad *)

Lemma bind_Ok {A B : Type} (f : A -> res B) (m : res A) (b : B) :
  m ≫= f = Ok b <-> exists a, m = Ok a /\ f a = Ok b.
Proof.
  destruct m as [a|e]; simpl; split.
  - intros H. exists a. auto.
  - intros (a' & [= <-] & H). exact H.
  - discriminate.
  - intros (a' & [=] & _).
Qed.

Lemma bind_Raise {A B : Type} (f : A -> res B) (m : res A) (e : exn) :
  m ≫= f = Raise e <-> m = Raise e \/ exists a, m = Ok a /\ f a = Raise e.
Proof.
  destruct m as [a|e']; simpl; split.
  - intros H. right. exists a. auto.
  - intros [[=] | (a' & [= <-] & H)]. exact H.
  - intros [= ->]. left. reflexivity.
  - intros [[= ->] | (a' & [=] & _)]. reflexivity.
Qed.

(** ** Integer index arrays *)

Lemma check_index_valid size i :
  valid_index size i -> np.check_index size i = Ok (position size i).
Proof.
  unfold valid_index, np.check_index, position. intros H.
  destruct (decide (i < - size ∨ size ≤ i)) as [Hbad|_]; [lia | reflexivity].
Qed.

Lemma check_index_invalid size i :
  ~ valid_index size i -> np.check_index size i = Raise (IndexError_out_of_bounds i size).
Proof.
  unfold valid_index, np.check_index. intros H.
  destruct (decide (i < - size ∨ size ≤ i)) as [_|Hok]; [reflexivity | lia].
Qed.

Lemma valid_index_dec size i : {valid_index size i} + {~ valid_index size i}.
Proof. unfold valid_index. destruct (decide (- size ≤ i < size)); auto. Qed.

Lemma position_lt size i : valid_index size i -> (position size i < Z.to_nat size)%nat.
Proof. unfold valid_index, position. intros H. case_decide; lia. Qed.

Lemma position_in_range size i : 0 ≤ i < size -> position size i = Z.to_nat i.
Proof. unfold position. intros H. case_decide; [lia | reflexivity]. Qed.

Lemma check_indices_valid size idx :
  Forall (valid_index size) idx ->
  np.check_indices size idx = Ok (map (position size) idx).
Proof.
  induction 1 as [|i idx Hi _ IH]; simpl; [reflexivity|].
  rewrite (check_index_valid _ _ Hi), IH. reflexivity.
Qed.

Lemma check_indices_invalid size idx :
  ~ Forall (valid_index size) idx ->
  exists i, i ∈ idx /\ ~ valid_index size i /\
            np.check_indices size idx = Raise (IndexError_out_of_bounds i size).
Proof.
  induction idx as [|i idx IH]; intros Hbad.
  - destruct Hbad. constructor.
  - destruct (valid_index_dec size i) as [Hi|Hi].
    + destruct IH as (i' & Hin & Hi' & Heq).
      { intros Hall. apply Hbad. constructor; assumption. }
      exists i'. split; [right; exact Hin|]. split; [exact Hi'|].
      simpl. rewrite (check_index_valid _ _ Hi), Heq. reflexivity.
    + exists i. split; [left|]. split; [exact Hi|].
      simpl. rewrite (check_index_invalid _ _ Hi). reflexivity.
Qed.

(** ** Writing through an index array *)

Lemma length_foldl_insert (v : Z) (js : list nat) (a : list Z) :
  length (foldl (fun a' j => <[j := v]> a') a js) = length a.
Proof.
  revert a. induction js as [|j js IH]; intros a; simpl; [reflexivity|].
  rewrite IH. apply length_insert.
Qed.

Lemma lookup_foldl_insert (v : Z) (js : list nat) (a : list Z) (k : nat) :
  (k < length a)%nat ->
  foldl (fun a' j => <[j := v]> a') a js !! k
  = if bool_decide (k ∈ js) then Some v else a !! k.
Proof.
  revert a. induction js as [|j js IH]; intros a Hk; cbn [foldl].
  - case_bool_decide as Hin; [|reflexivity].
    apply elem_of_nil in Hin. contradiction.
  - rewrite IH by (rewrite length_insert; exact Hk).
    rewrite (bool_decide_ext (k ∈ j :: js) (k = j ∨ k ∈ js)) by apply elem_of_cons.
    repeat case_bool_decide; try reflexivity; try tauto.
    + destruct (decide (k = j)) as [->|Hne]; [|tauto].
      apply list_lookup_insert_eq. exact Hk.
    + apply list_lookup_insert_ne. intros ->. tauto.
Qed.

(** ** One row *)

Lemma length_row_of n idx : length (row_of n idx) = Z.to_nat n.
Proof. unfold row_of. rewrite length_foldl_insert. apply length_replicate. Qed.

Lemma lookup_row_of n idx (k : nat) :
  (k < Z.to_nat n)%nat ->
  row_of n idx !! k = Some (if bool_decide (k ∈ map (position n) idx) then 1 else 0).
Proof.
  intros Hk. unfold row_of.
  rewrite lookup_foldl_insert by (rewrite length_replicate; exact Hk).
  case_bool_decide; [reflexivity|].
  apply lookup_replicate_2. exact Hk.
Qed.

Lemma multi_hot_negative n idx :
  n < 0 -> multi_hot n idx = Raise ValueError_negative_dimensions.
Proof.
  intros Hn. unfold multi_hot, np.zeros.
  destruct (decide (n < 0)); [reflexivity | lia].
Qed.

(** For a size that is not negative, the row is built unless an index is
    out of bounds. *)
Section NonNegativeSize.

Context (n : Z) (Hn : 0 ≤ n).

Lemma multi_hot_unfold idx :
  multi_hot n idx
  = js ← np.check_indices n idx;
    Ok (foldl (fun a' j => <[j := 1]> a') (replicate (Z.to_nat n) 0) js).
Proof.
  unfold multi_hot, np.zeros.
  destruct (decide (n < 0)); [lia|]. simpl.
  unfold np.setitem_index. rewrite length_replicate, Z2Nat.id by exact Hn.
  reflexivity.
Qed.

Lemma multi_hot_valid idx :
  Forall (valid_index n) idx -> multi_hot n idx = Ok (row_of n idx).
Proof.
  intros Hall. rewrite multi_hot_unfold, (check_indices_valid _ _ Hall).
  reflexivity.
Qed.

Lemma multi_hot_invalid idx :
  ~ Forall (valid_index n) idx ->
  exists i, i ∈ idx /\ ~ valid_index n i /\
            multi_hot n idx = Raise (IndexError_out_of_bounds i n).
Proof.
  intros Hbad. destruct (check_indices_invalid _ _ Hbad) as (i & Hin & Hi & Heq).
  exists i. split; [exact Hin|]. split; [exact Hi|].
  rewrite multi_hot_unfold, Heq. reflexivity.
Qed.

End NonNegativeSize.

Lemma Forall_valid_index_dec n idx :
  {Forall (valid_index n) idx} + {~ Forall (valid_index n) idx}.
Proof. apply Forall_dec. intros i. apply valid_index_dec. Qed.

Lemma multi_hot_Ok_inv n idx row :
  multi_hot n idx = Ok row ->
  0 ≤ n /\ Forall (valid_index n) idx /\ row = row_of n idx.
Proof.
  intros H. destruct (Z_lt_le_dec n 0) as [Hn|Hn].
  { rewrite (multi_hot_negative _ _ Hn) in H. discriminate. }
  destruct (Forall_valid_index_dec n idx) as [Hall|Hbad].
  - rewrite (multi_hot_valid _ Hn _ Hall) in H. injection H as <-. auto.
  - destruct (multi_hot_invalid _ Hn _ Hbad) as (i & _ & _ & Heq).
    rewrite Heq in H. discriminate.
Qed.

(** ** The loop *)

Lemma loop_body_eq n g s :
  loop_body n g s
  = r ← multi_hot n (feature s); Ok (append_sample g r (label s) (split s)).
Proof.
  unfold loop_body, multi_hot. destruct (np.zeros n) as [vec0|e]; reflexivity.
Qed.

Lemma for_each_loop_body n ss g :
  for_each (loop_body n) g ss
  = rows ← rows_of n ss;
    Ok (mkGlobals (X g ++ rows) (y g ++ map label ss) (splits g ++ map split ss)
                  (X_train g) (y_train g) (X_val g) (y_val g) (X_test g) (y_test g)).
Proof.
  revert g. induction ss as [|s ss IH]; intros g; cbn [for_each rows_of map].
  - destruct g. simpl. rewrite !app_nil_r. reflexivity.
  - rewrite loop_body_eq.
    destruct (multi_hot n (feature s)) as [r|e]; [|reflexivity].
    cbn [mbind res_bind]. rewrite IH.
    destruct (rows_of n ss) as [rows|e]; [|reflexivity].
    cbn. rewrite <- !app_assoc. reflexivity.
Qed.

Lemma rows_of_Ok n ss rows :
  rows_of n ss = Ok rows <->
  Forall2 (fun s r => multi_hot n (feature s) = Ok r) ss rows.
Proof.
  revert rows. induction ss as [|s ss IH]; intros rows; cbn [rows_of].
  - split.
    + intros [= <-]. constructor.
    + intros H. inversion H. reflexivity.
  - rewrite bind_Ok. split.
    + intros (r & Hr & H). apply bind_Ok in H. destruct H as (rs & Hrs & [= <-]).
      constructor; [exact Hr | apply IH; exact Hrs].
    + intros H. inversion H as [|s' r ss' rs Hr Hrs]; subst.
      exists r. split; [exact Hr|]. apply IH in Hrs. rewrite Hrs. reflexivity.
Qed.

Lemma rows_of_length n ss rows : rows_of n ss = Ok rows -> length rows = length ss.
Proof.
  intros H. apply rows_of_Ok in H.
  apply Forall2_length in H. symmetry. exact H.
Qed.

(** ** Thresholding and masks *)

Lemma binarize_eq task (ls : list Z) : binarize task ls = Ok (map (threshold task) ls).
Proof.
  unfold binarize, threshold. destruct (String.prefix "lab_" task).
  - unfold np.setitem_mask, np.ge. rewrite length_map.
    destruct (decide (length ls = length ls)) as [_|Hne]; [|contradiction].
    f_equal. induction ls as [|l ls IH]; simpl; [reflexivity|]. rewrite IH. reflexivity.
  - rewrite map_id. reflexivity.
Qed.

Lemma length_np_eq (tags : list string) (name : string) :
  length (np.eq tags name) = length tags.
Proof. apply length_map. Qed.

Lemma getitem_mask_eq {A : Type} (a : list A) (tags : list string) (name : string) :
  length tags = length a ->
  np.getitem_mask a (np.eq tags name) = Ok (np.select (np.eq tags name) a).
Proof.
  intros Hlen. unfold np.getitem_mask. rewrite length_np_eq.
  destruct (decide (length tags = length a)); [reflexivity | contradiction].
Qed.

Lemma cell11_eq n task ss g :
  cell11 n task ss g = rows ← rows_of n ss; Ok (outputs task rows ss).
Proof.
  unfold cell11. rewrite for_each_loop_body.
  destruct (rows_of n ss) as [rows|e] eqn:Hrows; [|reflexivity].
  apply rows_of_length in Hrows.
  cbn [mbind res_bind init_lists X y splits app np.array]. rewrite binarize_eq.
  cbn [mbind res_bind].
  rewrite !getitem_mask_eq by (rewrite ?length_map; congruence). reflexivity.
Qed.

Lemma cell11_Ok n task ss g out :
  cell11 n task ss g = Ok out <->
  exists rows, rows_of n ss = Ok rows /\ out = outputs task rows ss.
Proof.
  rewrite cell11_eq, bind_Ok. split; intros (rows & Hrows & H); exists rows.
  - injection H as <-. auto.
  - subst out. auto.
Qed.

(** ** When the loop completes *)

Section LoopNonNegativeSize.

Context (n : Z) (Hn : 0 ≤ n).

Lemma rows_of_valid ss :
  Forall (valid_sample n) ss ->
  rows_of n ss = Ok (map (fun s => row_of n (feature s)) ss).
Proof.
  induction 1 as [|s ss Hs _ IH]; cbn [rows_of map]; [reflexivity|].
  rewrite (multi_hot_valid _ Hn _ Hs), IH. reflexivity.
Qed.

Lemma rows_of_invalid ss :
  ~ Forall (valid_sample n) ss ->
  exists s i, s ∈ ss /\ i ∈ feature s /\ ~ valid_index n i /\
              rows_of n ss = Raise (IndexError_out_of_bounds i n).
Proof.
  induction ss as [|s ss IH]; intros Hbad.
  - destruct Hbad. constructor.
  - destruct (Forall_valid_index_dec n (feature s)) as [Hs|Hs].
    + destruct IH as (s' & i & Hin & Hi & Hinv & Heq).
      { intros Hall. apply Hbad. constructor; assumption. }
      exists s', i. split; [right; exact Hin|]. split; [exact Hi|]. split; [exact Hinv|].
      cbn [rows_of]. rewrite (multi_hot_valid _ Hn _ Hs), Heq. reflexivity.
    + destruct (multi_hot_invalid _ Hn _ Hs) as (i & Hi & Hinv & Heq).
      exists s, i. split; [left|]. split; [exact Hi|]. split; [exact Hinv|].
      cbn [rows_of]. rewrite Heq. reflexivity.
Qed.

End LoopNonNegativeSize.

Lemma rows_of_negative n s ss :
  n < 0 -> rows_of n (s :: ss) = Raise ValueError_negative_dimensions.
Proof. intros Hn. cbn [rows_of]. rewrite (multi_hot_negative _ _ Hn). reflexivity. Qed.

Lemma rows_of_Ok_inv n ss rows :
  rows_of n ss = Ok rows ->
  Forall (valid_sample n) ss /\ rows = map (fun s => row_of n (feature s)) ss.
Proof.
  intros H. apply rows_of_Ok in H.
  induction H as [|s r ss rows Hr _ [IH1 IH2]]; [split; [constructor | reflexivity]|].
  apply multi_hot_Ok_inv in Hr. destruct Hr as (_ & Hs & ->).
  split; [constructor; assumption|]. cbn [map]. rewrite IH2. reflexivity.
Qed.

(** ** Boolean masks *)

Lemma select_taken_at {A : Type} (mask : list bool) (a : list A) :
  length mask = length a -> taken_at a (flatnonzero mask) (np.select mask a).
Proof.
  unfold taken_at. revert a.
  induction mask as [|b mask IH]; intros [|x a] Hlen; try discriminate; cbn.
  - constructor.
  - assert (Forall2 (fun (k : nat) (x0 : A) => (x :: a) !! k = Some x0)
              (map S (flatnonzero mask)) (np.select mask a)) as Htl.
    { apply Forall2_fmap_l. apply IH. simpl in Hlen. congruence. }
    destruct b; [constructor; [reflexivity | exact Htl] | exact Htl].
Qed.

Lemma elem_of_flatnonzero (mask : list bool) (k : nat) :
  k ∈ flatnonzero mask <-> mask !! k = Some true.
Proof.
  revert k. induction mask as [|b mask IH]; intros k; cbn [flatnonzero].
  - rewrite elem_of_nil. split; [contradiction | discriminate].
  - change (map S ?l) with (S <$> l).
    rewrite elem_of_app, list_elem_of_fmap. destruct k as [|k]; cbn.
    + split.
      * intros [H | (k' & [=] & _)]. destruct b; [reflexivity|].
        apply elem_of_nil in H. contradiction.
      * intros [= ->]. left. left.
    + rewrite <- IH. split.
      * intros [H | (k' & [= <-] & H)]; [|exact H].
        destruct b; [apply list_elem_of_singleton in H; discriminate|].
        apply elem_of_nil in H. contradiction.
      * intros H. right. exists k. auto.
Qed.

Lemma flatnonzero_sorted (mask : list bool) : StronglySorted lt (flatnonzero mask).
Proof.
  induction mask as [|b mask IH]; cbn [flatnonzero]; [constructor|].
  assert (StronglySorted lt (map S (flatnonzero mask))) as Htl.
  { clear -IH. induction IH as [|k ks _ IH Hk]; cbn [map]; constructor; [exact IH|].
    apply Forall_fmap. eapply Forall_impl; [exact Hk|]. intros k' Hlt. simpl. lia. }
  destruct b; cbn [app]; [|exact Htl].
  constructor; [exact Htl|]. apply Forall_fmap, Forall_true. intros k. simpl. lia.
Qed.

Lemma flatnonzero_NoDup (mask : list bool) : NoDup (flatnonzero mask).
Proof.
  generalize (flatnonzero_sorted mask).
  induction 1 as [|k ks _ IH Hk]; constructor; [|exact IH].
  intros Hin. rewrite Forall_forall in Hk. specialize (Hk _ Hin). lia.
Qed.

Lemma lookup_np_eq (tags : list string) (name : string) (k : nat) :
  np.eq tags name !! k = Some true <-> tags !! k = Some name.
Proof.
  unfold np.eq. change (map ?f ?l) with (f <$> l). rewrite list_lookup_fmap.
  destruct (tags !! k) as [t|]; cbn; [|split; discriminate].
  case_bool_decide as Heq; split; congruence.
Qed.

Lemma elem_of_tagged name tags k : k ∈ tagged name tags <-> tags !! k = Some name.
Proof. unfold tagged. rewrite elem_of_flatnonzero. apply lookup_np_eq. Qed.

(** ** Rows and columns *)

Lemma in_range_valid n i : 0 ≤ i < n -> valid_index n i.
Proof. unfold valid_index. lia. Qed.

Lemma in_range_valid_sample n s : in_range_sample n s -> valid_sample n s.
Proof.
  intros H. eapply Forall_impl; [exact H|]. intros i. apply in_range_valid.
Qed.

Lemma elem_of_positions_in_range n idx j :
  Forall (fun i => 0 ≤ i < n) idx -> 0 ≤ j ->
  Z.to_nat j ∈ map (position n) idx <-> j ∈ idx.
Proof.
  intros Hall Hj. change (map ?f ?l) with (f <$> l). rewrite list_elem_of_fmap.
  rewrite Forall_forall in Hall. split.
  - intros (i & Heq & Hin). specialize (Hall _ Hin).
    rewrite position_in_range in Heq by exact Hall.
    apply Z2Nat.inj in Heq; [subst; exact Hin | exact Hj | lia].
  - intros Hin. exists j. split; [|exact Hin].
    symmetry. apply position_in_range, Hall, Hin.
Qed.

Lemma row_of_entries n idx : Forall (fun v => v = 0 \/ v = 1) (row_of n idx).
Proof.
  apply Forall_lookup. intros k v Hk.
  assert (k < Z.to_nat n)%nat as Hlt.
  { rewrite <- (length_row_of n idx). eapply lookup_lt_Some, Hk. }
  rewrite (lookup_row_of _ _ _ Hlt) in Hk. injection Hk as <-.
  case_bool_decide; auto.
Qed.

(** ** The claims *)

(** C1. When every feature index of every sample lies in
    [[0, num_features)], the cell completes, [X] has one row per sample, and
    row [k] has length [num_features], holds 1 at the columns listed in
    sample [k]'s feature indices and 0 at every other column. *)
Theorem feature_matrix_rows_multi_hot n task ss g :
  0 ≤ n ->
  Forall (fun s => Forall (fun i => 0 ≤ i < n) (feature s)) ss ->
  exists out, cell11 n task ss g = Ok out /\
    length (X out) = length ss /\
    forall k s, ss !! k = Some s ->
      exists row, X out !! k = Some row /\ length row = Z.to_nat n /\
        forall j, 0 ≤ j < n ->
          row !! Z.to_nat j = Some (if bool_decide (j ∈ feature s) then 1 else 0).
Proof.
  intros Hn Hall.
  assert (Forall (valid_sample n) ss) as Hvalid.
  { eapply Forall_impl; [exact Hall|]. intros s. apply in_range_valid_sample. }
  exists (outputs task (map (fun s => row_of n (feature s)) ss) ss).
  split; [rewrite cell11_eq, (rows_of_valid _ Hn _ Hvalid); reflexivity|].
  cbn [outputs X]. split; [apply length_map|].
  intros k s Hk. exists (row_of n (feature s)).
  split; [|split].
  - change (map ?f ?l) with (f <$> l). rewrite list_lookup_fmap, Hk. reflexivity.
  - apply length_row_of.
  - intros j Hj. rewrite lookup_row_of by lia. f_equal.
    rewrite Forall_forall in Hall.
    assert (s ∈ ss) as Hs by (eapply list_elem_of_lookup_2, Hk).
    rewrite (bool_decide_ext _ _ (elem_of_positions_in_range n _ j (Hall _ Hs) (proj1 Hj))).
    reflexivity.
Qed.

Lemma feature_matrix_rows_multi_hot_witness :
  0 ≤ 3 /\
  Forall (fun s => Forall (fun i => 0 ≤ i < 3) (feature s)) scenario /\
  exists out, cell11 3 "lab_anemia" scenario g0 = Ok out /\
    length (X out) = length scenario /\
    forall k s, scenario !! k = Some s ->
      exists row, X out !! k = Some row /\ length row = Z.to_nat 3 /\
        forall j, 0 ≤ j < 3 ->
          row !! Z.to_nat j = Some (if bool_decide (j ∈ feature s) then 1 else 0).
Proof.
  assert (0 ≤ 3) as H3 by lia.
  assert (Forall (fun s => Forall (fun i => 0 ≤ i < 3) (feature s)) scenario) as Hall.
  { unfold scenario. repeat constructor; cbn; lia. }
  split; [exact H3|]. split; [exact Hall|].
  exact (feature_matrix_rows_multi_hot 3 "lab_anemia" scenario g0 H3 Hall).
Defined.

(** C2. Whenever the cell completes, [X] has as many rows, and [y] and
    [splits] as many entries, as there are samples; and it does complete
    when the feature-space size is non-negative and every feature index is
    one NumPy accepts. *)
Theorem outputs_lengths n task ss g :
  (forall out, cell11 n task ss g = Ok out ->
     length (X out) = length ss /\
     length (y out) = length ss /\
     length (splits out) = length ss) /\
  (0 ≤ n -> Forall (valid_sample n) ss -> exists out, cell11 n task ss g = Ok out).
Proof.
  split.
  - intros out Hout. apply cell11_Ok in Hout. destruct Hout as (rows & Hrows & ->).
    cbn [outputs X y splits]. rewrite !length_map.
    split; [exact (rows_of_length _ _ _ Hrows) | split; reflexivity].
  - intros Hn Hvalid. eexists.
    rewrite cell11_eq, (rows_of_valid _ Hn _ Hvalid). reflexivity.
Qed.

Lemma scenario_valid : Forall (valid_sample 3) scenario.
Proof. unfold scenario, valid_sample, valid_index. repeat constructor; cbn; lia. Defined.

Lemma outputs_lengths_witness :
  (0 ≤ 3 /\ Forall (valid_sample 3) scenario) /\
  exists out, cell11 3 "lab_anemia" scenario g0 = Ok out /\
    length (X out) = 3%nat /\ length (y out) = 3%nat /\ length (splits out) = 3%nat.
Proof.
  assert (0 ≤ 3) as H3 by lia.
  destruct (outputs_lengths 3 "lab_anemia" scenario g0) as [Hlen Hex].
  split; [split; [exact H3 | exact scenario_valid]|].
  destruct (Hex H3 scenario_valid) as [out Hout].
  exists out. split; [exact Hout|]. exact (Hlen out Hout).
Defined.

(** C9. On the empty sequence of samples the cell completes, whatever the
    feature-space size and the task: [X], [y] and [splits] have no rows and
    the three partitions are empty. *)
Theorem empty_input_completes n task g :
  cell11 n task [] g = Ok (mkGlobals [] [] [] [] [] [] [] [] []).
Proof. rewrite cell11_eq. reflexivity. Qed.

(** C6. With a feature space of size 0, a sample with at least one feature
    index makes the cell raise the out-of-bounds IndexError (for an axis of
    size 0); the cell does not complete, so no zero-width matrix is
    produced. *)
Theorem zero_width_raises task ss g :
  (exists s, s ∈ ss /\ feature s <> []) ->
  (exists i, cell11 0 task ss g = Raise (IndexError_out_of_bounds i 0)) /\
  (forall out, cell11 0 task ss g <> Ok out).
Proof.
  intros (s & Hs & Hne).
  assert (~ Forall (valid_sample 0) ss) as Hbad.
  { intros Hall. rewrite Forall_forall in Hall. specialize (Hall _ Hs).
    destruct (feature s) as [|i idx] eqn:Hf; [contradiction|].
    unfold valid_sample in Hall. rewrite Hf in Hall.
    apply Forall_cons_1 in Hall. destruct Hall as [Hi _].
    unfold valid_index in Hi. lia. }
  destruct (rows_of_invalid 0 (Z.le_refl 0) ss Hbad) as (s' & i & _ & _ & _ & Heq).
  assert (cell11 0 task ss g = Raise (IndexError_out_of_bounds i 0)) as Hraise.
  { rewrite cell11_eq, Heq. reflexivity. }
  split; [exists i; exact Hraise|].
  intros out Hout. rewrite Hraise in Hout. discriminate.
Qed.

Lemma zero_width_raises_witness :
  (exists s, s ∈ [mkSample [0] 1 "train"] /\ feature s <> []) /\
  (exists i, cell11 0 "guo_icu" [mkSample [0] 1 "train"] g0
             = Raise (IndexError_out_of_bounds i 0)) /\
  (forall out, cell11 0 "guo_icu" [mkSample [0] 1 "train"] g0 <> Ok out).
Proof.
  assert (exists s, s ∈ [mkSample [0] 1 "train"] /\ feature s <> []) as Hex.
  { exists (mkSample [0] 1 "train"). split; [left | discriminate]. }
  split; [exact Hex|].
  exact (zero_width_raises "guo_icu" [mkSample [0] 1 "train"] g0 Hex).
Defined.

(** C7. The result of the cell is a function of the feature-space size, the
    task name and the sample sequence alone: it does not depend on the values
    the notebook's variables held before the run, and running the cell again
    on the variables a first run left gives the first run's result, the same
    [X], [y], [splits] and partitions, or the same exception. *)
Theorem rerun_identical n task ss g1 g2 :
  cell11 n task ss g1 = cell11 n task ss g2 /\
  (cell11 n task ss g1 ≫= cell11 n task ss) = cell11 n task ss g1.
Proof.
  split; [rewrite !cell11_eq; reflexivity|].
  destruct (cell11 n task ss g1) as [out|e] eqn:Hrun; [|reflexivity].
  cbn [mbind res_bind]. rewrite cell11_eq in Hrun |- *. exact Hrun.
Qed.

Lemma threshold_nonneg task l : 0 ≤ l -> threshold task l = binarized_label task l.
Proof.
  intros Hl. unfold threshold, binarized_label.
  destruct (String.prefix "lab_" task); [|reflexivity].
  case_bool_decide; [reflexivity | lia].
Qed.

(** What [y[y >= 1] = 1] does on any integer labels: for a task whose name
    starts with "lab_" the output label is 1 where the input label is at
    least 1 and the input label itself elsewhere; for any other task it is
    the input label. *)
Lemma labels_thresholded n task ss g out :
  cell11 n task ss g = Ok out ->
  length (y out) = length ss /\
  (forall k s, ss !! k = Some s ->
     y out !! k = Some (if String.prefix "lab_" task
                        then (if bool_decide (1 ≤ label s) then 1 else label s)
                        else label s)) /\
  (Forall (fun s => 0 ≤ label s) ss ->
   y out = map (binarized_label task) (map label ss)).
Proof.
  intros Hout. apply cell11_Ok in Hout. destruct Hout as (rows & _ & ->).
  cbn [outputs y]. split; [rewrite !length_map; reflexivity|]. split.
  - intros k s Hk. change (map ?f ?l) with (f <$> l).
    rewrite !list_lookup_fmap, Hk. reflexivity.
  - intros Hall. rewrite !map_map. apply map_ext_in. intros s Hs.
    apply threshold_nonneg. rewrite Forall_forall in Hall.
    apply Hall, list_elem_of_In, Hs.
Qed.

(** C3. The labels are class indices, so none is negative. When the cell
    completes, [y] has one label per sample; for a task whose name starts
    with "lab_" every output label is 1 if the input label is at least 1 and
    0 otherwise; for any other task every output label is the input label,
    unchanged. *)
Theorem labels_binarized_or_unchanged n task ss g out :
  cell11 n task ss g = Ok out ->
  length (y out) = length ss /\
  (String.prefix "lab_" task = true ->
   Forall (fun s => 0 ≤ label s) ss ->
   forall k s, ss !! k = Some s ->
     y out !! k = Some (if bool_decide (1 ≤ label s) then 1 else 0)) /\
  (String.prefix "lab_" task = false ->
   forall k s, ss !! k = Some s -> y out !! k = Some (label s)).
Proof.
  intros Hout. apply cell11_Ok in Hout. destruct Hout as (rows & _ & ->).
  cbn [outputs y]. split; [rewrite !length_map; reflexivity|].
  assert (forall k s, ss !! k = Some s ->
            map (threshold task) (map label ss) !! k = Some (threshold task (label s)))
    as Hlookup.
  { intros k s Hk. change (map ?f ?l) with (f <$> l).
    rewrite !list_lookup_fmap, Hk. reflexivity. }
  split.
  - intros Hlab Hall k s Hk. rewrite (Hlookup k s Hk). f_equal.
    rewrite Forall_forall in Hall.
    assert (0 ≤ label s) as Hs by (eapply Hall, list_elem_of_lookup_2, Hk).
    rewrite (threshold_nonneg task _ Hs). unfold binarized_label. rewrite Hlab.
    reflexivity.
  - intros Hother k s Hk. rewrite (Hlookup k s Hk). unfold threshold.
    rewrite Hother. reflexivity.
Qed.

Lemma labels_binarized_or_unchanged_witness :
  (String.prefix "lab_" "lab_anemia" = true /\ Forall (fun s => 0 ≤ label s) scenario) /\
  String.prefix "lab_" "guo_icu" = false /\
  (exists out, cell11 3 "lab_anemia" scenario g0 = Ok out /\
     y out !! 0%nat = Some 0 /\ y out !! 1%nat = Some 1) /\
  (exists out, cell11 3 "guo_icu" scenario g0 = Ok out /\ y out !! 1%nat = Some 2).
Proof.
  assert (Forall (fun s => 0 ≤ label s) scenario) as Hall.
  { unfold scenario. repeat constructor; cbn; lia. }
  split; [split; [reflexivity | exact Hall]|]. split; [reflexivity|]. split.
  - eexists. split; [reflexivity|].
    destruct (labels_binarized_or_unchanged 3 "lab_anemia" scenario g0 _ eq_refl)
      as (_ & Hlab & _).
    split.
    + exact (Hlab eq_refl Hall 0%nat (mkSample [0; 2] 0 "train") eq_refl).
    + exact (Hlab eq_refl Hall 1%nat (mkSample [1] 2 "test") eq_refl).
  - eexists. split; [reflexivity|].
    destruct (labels_binarized_or_unchanged 3 "guo_icu" scenario g0 _ eq_refl)
      as (_ & _ & Hother).
    exact (Hother eq_refl 1%nat (mkSample [1] 2 "test") eq_refl).
Defined.

(** C5, as stated, fails on the index -1: NumPy counts it from the end of
    the row, and the cell completes with the last column set. *)
Lemma out_of_range_raises_counterexample :
  ~ out_of_range_raises 3 "guo_icu" [mkSample [-1] 0 "train"] g0.
Proof.
  intros H.
  destruct (H (mkSample [-1] 0 "train") (-1)) as (i' & size & Heq).
  - left.
  - left.
  - lia.
  - vm_compute in Heq. discriminate.
Qed.

Example negative_index_wraps :
  cell11 3 "guo_icu" [mkSample [-1] 0 "train"] g0
  = Ok (mkGlobals [[0; 0; 1]] [0] ["train"] [[0; 0; 1]] [0] [] [] [] []).
Proof. reflexivity. Qed.

(** C5, amended. For a non-negative feature-space size [n]: a sample with a
    feature index [i >= n] or [i < -n] makes the cell raise the out-of-bounds
    IndexError for an axis of size [n], so the cell does not complete; when
    every index lies in [[-n, n)] the cell completes, an index in [[-n, 0)]
    denoting column [n + i]. *)
Theorem out_of_bounds_raises n task ss g :
  0 ≤ n ->
  (forall s i, s ∈ ss -> i ∈ feature s -> i < - n \/ n ≤ i ->
     exists i', (i' < - n \/ n ≤ i') /\
                cell11 n task ss g = Raise (IndexError_out_of_bounds i' n)) /\
  (Forall (fun s => Forall (fun i => - n ≤ i < n) (feature s)) ss ->
     exists out, cell11 n task ss g = Ok out /\
       forall k s, ss !! k = Some s ->
         exists row, X out !! k = Some row /\
           forall c, (c < Z.to_nat n)%nat ->
             row !! c = Some (if bool_decide (c ∈ map (position n) (feature s))
                              then 1 else 0)).
Proof.
  intros Hn. split.
  - intros s i Hs Hi Hbad.
    assert (~ Forall (valid_sample n) ss) as Hnot.
    { intros Hall. rewrite Forall_forall in Hall. specialize (Hall _ Hs).
      unfold valid_sample in Hall. rewrite Forall_forall in Hall.
      specialize (Hall _ Hi). unfold valid_index in Hall. lia. }
    destruct (rows_of_invalid n Hn ss Hnot) as (s' & i' & _ & _ & Hinv & Heq).
    exists i'. split; [unfold valid_index in Hinv; lia|].
    rewrite cell11_eq, Heq. reflexivity.
  - intros Hvalid.
    exists (outputs task (map (fun s => row_of n (feature s)) ss) ss).
    split; [rewrite cell11_eq, (rows_of_valid _ Hn _ Hvalid); reflexivity|].
    intros k s Hk. exists (row_of n (feature s)). split.
    + cbn [outputs X]. change (map ?f ?l) with (f <$> l) at 1.
      rewrite list_lookup_fmap, Hk. reflexivity.
    + intros c Hc. apply lookup_row_of, Hc.
Qed.

Lemma out_of_bounds_raises_witness :
  (0 ≤ 3 /\ mkSample [3] 0 "train" ∈ scenario ++ [mkSample [3] 0 "train"] /\
   3 ∈ feature (mkSample [3] 0 "train") /\ (3 < - 3 \/ 3 ≤ 3)) /\
  exists i', (i' < - 3 \/ 3 ≤ i') /\
    cell11 3 "guo_icu" (scenario ++ [mkSample [3] 0 "train"]) g0
    = Raise (IndexError_out_of_bounds i' 3).
Proof.
  assert (0 ≤ 3) as H3 by lia.
  assert (mkSample [3] 0 "train" ∈ scenario ++ [mkSample [3] 0 "train"]) as Hs.
  { unfold scenario. cbn [app]. do 3 right. left. }
  assert (3 ∈ feature (mkSample [3] 0 "train")) as Hi by (cbn; left).
  assert (3 < - 3 \/ 3 ≤ 3) as Hbad by (right; lia).
  split; [repeat split; assumption|].
  destruct (out_of_bounds_raises 3 "guo_icu" (scenario ++ [mkSample [3] 0 "train"]) g0 H3)
    as [Hraise _].
  exact (Hraise _ _ Hs Hi Hbad).
Defined.

(** ** Partitions *)

Lemma tagged_disjoint (a b : string) tags k :
  a <> b -> k ∈ tagged a tags -> k ∉ tagged b tags.
Proof.
  intros Hne Ha Hb. apply elem_of_tagged in Ha, Hb. congruence.
Qed.

Lemma tagged_NoDup name tags : NoDup (tagged name tags).
Proof. apply flatnonzero_NoDup. Qed.

Lemma three_partitions_NoDup tags :
  NoDup (tagged "train" tags ++ tagged "val" tags ++ tagged "test" tags).
Proof.
  apply NoDup_app. split; [apply tagged_NoDup|]. split.
  - intros k Hk Hin. apply elem_of_app in Hin. destruct Hin as [Hin|Hin];
      revert Hin; eapply tagged_disjoint; [| exact Hk | | exact Hk]; discriminate.
  - apply NoDup_app. split; [apply tagged_NoDup|]. split; [|apply tagged_NoDup].
    intros k Hk. eapply tagged_disjoint; [|exact Hk]. discriminate.
Qed.

Lemma elem_of_three_partitions tags k :
  k ∈ tagged "train" tags ++ tagged "val" tags ++ tagged "test" tags
  <-> exists t, tags !! k = Some t /\ known_tag t.
Proof.
  rewrite !elem_of_app, !elem_of_tagged. unfold known_tag. split.
  - intros [H | [H | H]]; eexists; (split; [exact H|]); auto.
  - intros (t & Ht & [-> | [-> | ->]]); auto.
Qed.

Lemma three_partitions_all tags :
  Forall known_tag tags ->
  tagged "train" tags ++ tagged "val" tags ++ tagged "test" tags
  ≡ₚ seq 0 (length tags).
Proof.
  intros Hall. apply NoDup_Permutation.
  - apply three_partitions_NoDup.
  - apply NoDup_seq.
  - intros k. rewrite elem_of_three_partitions, elem_of_seq. split.
    + intros (t & Ht & _). apply lookup_lt_Some in Ht. lia.
    + intros [_ Hk]. destruct (lookup_lt_is_Some_2 tags k) as [t Ht]; [lia|].
      exists t. split; [exact Ht|]. rewrite Forall_forall in Hall.
      eapply Hall, list_elem_of_lookup_2, Ht.
Qed.

Lemma select_length {A : Type} (a : list A) name tags :
  length tags = length a ->
  length (np.select (np.eq tags name) a) = length (tagged name tags).
Proof.
  intros Hlen. symmetry. unfold tagged.
  eapply Forall2_length, select_taken_at. rewrite length_np_eq. exact Hlen.
Qed.

(** C4, as stated, fails on a sample whose tag is none of "train", "val",
    "test": the cell makes no partition for it and the row is in none. *)
Lemma partitions_cover_counterexample :
  ~ partitions_cover 1 "guo_icu" [mkSample [0] 1 "held_out"] g0.
Proof.
  intros H. destruct (H _ eq_refl) as [_ Hsum]. vm_compute in Hsum. discriminate.
Qed.

Lemma elem_of_tagged_samples name (ss : list Sample) (k : nat) :
  k ∈ tagged name (map split ss) <-> exists s, ss !! k = Some s /\ split s = name.
Proof.
  rewrite elem_of_tagged. change (map ?f ?l) with (f <$> l).
  rewrite list_lookup_fmap. split.
  - destruct (ss !! k) as [s|]; [|discriminate]. intros [= <-]. exists s. auto.
  - intros (s & -> & <-). reflexivity.
Qed.

(** C4, amended. When the cell completes, [splits] holds the samples' tags,
    [X] the samples' rows and [y] their labels, in order, and the partitions
    are those of the three fixed tags "train", "val" and "test": each holds
    the rows of [X] and entries of [y] at the positions of the samples
    carrying its tag, and at no other; no position is in two partitions or
    twice in one; a position is in a partition exactly when its sample's tag
    is one of the three; and when every sample's tag is one of the three, the
    positions of the partitions are all the positions, each once, and the
    partition sizes add up to the number of samples. *)
Theorem partitions_of_fixed_tags n task ss g out :
  cell11 n task ss g = Ok out ->
  let tr := tagged "train" (map split ss) in
  let va := tagged "val" (map split ss) in
  let te := tagged "test" (map split ss) in
  (splits out = map split ss /\
   Forall2 (fun s r => multi_hot n (feature s) = Ok r) ss (X out) /\
   y out = map (fun s => threshold task (label s)) ss) /\
  ((forall k, k ∈ tr <-> exists s, ss !! k = Some s /\ split s = "train") /\
   (forall k, k ∈ va <-> exists s, ss !! k = Some s /\ split s = "val") /\
   (forall k, k ∈ te <-> exists s, ss !! k = Some s /\ split s = "test")) /\
  (taken_at (X out) tr (X_train out) /\ taken_at (y out) tr (y_train out) /\
   taken_at (X out) va (X_val out) /\ taken_at (y out) va (y_val out) /\
   taken_at (X out) te (X_test out) /\ taken_at (y out) te (y_test out)) /\
  NoDup (tr ++ va ++ te) /\
  (forall k, k ∈ tr ++ va ++ te <->
             exists s, ss !! k = Some s /\ known_tag (split s)) /\
  (Forall (fun s => known_tag (split s)) ss ->
   tr ++ va ++ te ≡ₚ seq 0 (length ss) /\
   (length (X_train out) + length (X_val out) + length (X_test out) = length ss)%nat /\
   (length (y_train out) + length (y_val out) + length (y_test out) = length ss)%nat).
Proof.
  intros Hout. apply cell11_Ok in Hout. destruct Hout as (rows & Hrows & ->).
  pose proof (proj1 (rows_of_Ok _ _ _) Hrows) as Hrows2.
  apply rows_of_length in Hrows.
  cbn [outputs X y splits X_train y_train X_val y_val X_test y_test].
  split; [split; [reflexivity | split; [exact Hrows2 | apply map_map]]|].
  split; [repeat split; apply elem_of_tagged_samples|].
  set (tags := map split ss).
  assert (length tags = length rows) as HlenX.
  { unfold tags. rewrite length_map. congruence. }
  assert (length tags = length (map (threshold task) (map label ss))) as Hleny.
  { unfold tags. rewrite !length_map. reflexivity. }
  assert (forall name, length (np.eq tags name) = length rows) as HmX.
  { intros name. rewrite length_np_eq. exact HlenX. }
  assert (forall name, length (np.eq tags name)
                       = length (map (threshold task) (map label ss))) as Hmy.
  { intros name. rewrite length_np_eq. exact Hleny. }
  split; [|split; [|split]].
  - unfold tagged. repeat split; apply select_taken_at; auto.
  - apply three_partitions_NoDup.
  - intros k. rewrite elem_of_three_partitions. unfold tags.
    change (map ?f ?l) with (f <$> l). rewrite list_lookup_fmap. split.
    + intros (t & Ht & Hknown). destruct (ss !! k) as [s|]; [|discriminate].
      injection Ht as <-. exists s. auto.
    + intros (s & -> & Hknown). exists (split s). auto.
  - intros Hall.
    assert (Forall known_tag tags) as Htags.
    { unfold tags. change (map ?f ?l) with (f <$> l). apply Forall_fmap. exact Hall. }
    pose proof (three_partitions_all tags Htags) as Hperm.
    assert (length tags = length ss) as Hlen by (unfold tags; apply length_map).
    rewrite Hlen in Hperm. split; [exact Hperm|].
    apply Permutation_length in Hperm.
    rewrite !length_app, length_seq in Hperm.
    rewrite !(select_length rows) by exact HlenX.
    rewrite !(select_length (map (threshold task) (map label ss))) by exact Hleny.
    split; lia.
Qed.

Lemma partitions_of_fixed_tags_witness :
  exists out, cell11 3 "lab_anemia" scenario g0 = Ok out /\
    Forall (fun s => known_tag (split s)) scenario /\
    splits out = map split scenario /\
    (1%nat ∈ tagged "test" (map split scenario)) /\
    taken_at (X out) (tagged "test" (map split scenario)) (X_test out) /\
    NoDup (tagged "train" (map split scenario) ++ tagged "val" (map split scenario)
           ++ tagged "test" (map split scenario)) /\
    (length (X_train out) + length (X_val out) + length (X_test out) = 3)%nat.
Proof.
  assert (Forall (fun s => known_tag (split s)) scenario) as Hall.
  { unfold scenario, known_tag. repeat (constructor; [cbn; auto|]). constructor. }
  eexists. split; [reflexivity|]. split; [exact Hall|].
  destruct (partitions_of_fixed_tags 3 "lab_anemia" scenario g0 _ eq_refl)
    as ((Hsplits & _) & (_ & _ & Hte) & (_ & _ & _ & _ & Htest & _) & Hnodup & _ & Hsum).
  split; [exact Hsplits|].
  split; [apply Hte; exists (mkSample [1] 2 "test"); split; reflexivity|].
  split; [exact Htest|]. split; [exact Hnodup|].
  destruct (Hsum Hall) as (_ & HX & _). exact HX.
Defined.

Lemma outputs_partition_in_order task rows ss name :
  length rows = length ss ->
  partition_in_order ss (outputs task rows ss) name
    (np.select (np.eq (map split ss) name) rows)
    (np.select (np.eq (map split ss) name) (map (threshold task) (map label ss))).
Proof.
  intros Hlen. exists (tagged name (map split ss)).
  split; [apply flatnonzero_sorted|]. split; [|split].
  - intros k. rewrite elem_of_tagged.
    change (map ?f ?l) with (f <$> l). rewrite list_lookup_fmap. split.
    + destruct (ss !! k) as [s|]; [|discriminate]. intros [= <-]. exists s. auto.
    + intros (s & -> & <-). reflexivity.
  - apply select_taken_at. rewrite length_np_eq, length_map. congruence.
  - apply select_taken_at. rewrite length_np_eq, !length_map. reflexivity.
Qed.

(** C8. When the cell completes, the rows of [X] and the entries of [y]
    follow the order of the sample sequence, and each partition holds the
    rows and labels of the samples carrying its tag at strictly increasing
    positions of that sequence: their relative order is the one they have in
    the input. *)
Theorem partition_order_preserved n task ss g out :
  cell11 n task ss g = Ok out ->
  Forall2 (fun s r => multi_hot n (feature s) = Ok r) ss (X out) /\
  y out = map (fun s => threshold task (label s)) ss /\
  partition_in_order ss out "train" (X_train out) (y_train out) /\
  partition_in_order ss out "val" (X_val out) (y_val out) /\
  partition_in_order ss out "test" (X_test out) (y_test out).
Proof.
  intros Hout. apply cell11_Ok in Hout. destruct Hout as (rows & Hrows & ->).
  pose proof (rows_of_length _ _ _ Hrows) as Hlen.
  split; [apply rows_of_Ok; exact Hrows|].
  split; [cbn [outputs y]; apply map_map|].
  repeat split; apply outputs_partition_in_order; exact Hlen.
Qed.

Lemma partition_order_preserved_witness :
  exists out, cell11 3 "lab_anemia" scenario g0 = Ok out /\
    partition_in_order scenario out "train" (X_train out) (y_train out).
Proof.
  eexists. split; [reflexivity|].
  destruct (partition_order_preserved 3 "lab_anemia" scenario g0 _ eq_refl)
    as (_ & _ & Htrain & _).
  exact Htrain.
Defined.

(** ** Repeated feature indices *)

Lemma row_of_ext n (idx1 idx2 : list Z) :
  (forall i, i ∈ idx1 <-> i ∈ idx2) -> row_of n idx1 = row_of n idx2.
Proof.
  intros Hsame. apply list_eq. intros k.
  destruct (decide (k < Z.to_nat n)%nat) as [Hk|Hk].
  - rewrite !lookup_row_of by exact Hk. f_equal.
    change (map ?f ?l) with (f <$> l).
    rewrite (bool_decide_ext (k ∈ position n <$> idx1) (k ∈ position n <$> idx2));
      [reflexivity|].
    rewrite !list_elem_of_fmap. split; intros (i & Heq & Hin); exists i;
      (split; [exact Heq | apply Hsame; exact Hin]).
  - rewrite !lookup_ge_None_2; [reflexivity | |]; rewrite length_row_of; lia.
Qed.

Lemma row_of_remove_dups n idx : row_of n (remove_dups idx) = row_of n idx.
Proof. apply row_of_ext. intros i. apply elem_of_remove_dups. Qed.

Lemma Forall_remove_dups (P : Z -> Prop) idx : Forall P idx -> Forall P (remove_dups idx).
Proof.
  rewrite !Forall_forall. intros H i Hi. apply H, elem_of_remove_dups, Hi.
Qed.

Lemma rows_of_dedup n ss :
  0 ≤ n -> Forall (valid_sample n) ss ->
  rows_of n (map dedup_features ss) = rows_of n ss.
Proof.
  intros Hn Hvalid. rewrite (rows_of_valid _ Hn _ Hvalid).
  rewrite (rows_of_valid _ Hn).
  - rewrite map_map. f_equal. apply map_ext. intros s. apply row_of_remove_dups.
  - change (map ?f ?l) with (f <$> l). apply Forall_fmap.
    eapply Forall_impl; [exact Hvalid|]. intros s Hs. apply Forall_remove_dups, Hs.
Qed.

Lemma outputs_dedup task rows ss :
  outputs task rows (map dedup_features ss) = outputs task rows ss.
Proof.
  unfold outputs.
  replace (map label (map dedup_features ss)) with (map label ss)
    by (rewrite map_map; reflexivity).
  replace (map split (map dedup_features ss)) with (map split ss)
    by (rewrite map_map; reflexivity).
  reflexivity.
Qed.

(** C10. Whenever the cell completes, every entry of [X] is 0 or 1; and for
    a non-negative feature-space size and feature indices in
    [[0, num_features)], the cell run on the samples with each feature index
    kept once completes with the very result of the run on the samples as
    given: repeating an index in a sample changes nothing. *)
Theorem entries_binary_duplicates_absorbed n task ss g :
  (forall out, cell11 n task ss g = Ok out ->
     Forall (Forall (fun v => v = 0 \/ v = 1)) (X out)) /\
  (0 ≤ n -> Forall (fun s => Forall (fun i => 0 ≤ i < n) (feature s)) ss ->
   exists out, cell11 n task ss g = Ok out /\
               cell11 n task (map dedup_features ss) g = Ok out).
Proof.
  split.
  - intros out Hout. apply cell11_Ok in Hout. destruct Hout as (rows & Hrows & ->).
    apply rows_of_Ok_inv in Hrows. destruct Hrows as [_ ->]. cbn [outputs X].
    change (map ?f ?l) with (f <$> l). apply Forall_fmap, Forall_true.
    intros s. apply row_of_entries.
  - intros Hn Hall.
    assert (Forall (valid_sample n) ss) as Hvalid.
    { eapply Forall_impl; [exact Hall|]. intros s. apply in_range_valid_sample. }
    exists (outputs task (map (fun s => row_of n (feature s)) ss) ss).
    rewrite !cell11_eq, (rows_of_dedup _ _ Hn Hvalid), (rows_of_valid _ Hn _ Hvalid).
    cbn [mbind res_bind]. rewrite outputs_dedup. split; reflexivity.
Qed.

Lemma entries_binary_duplicates_absorbed_witness :
  (0 ≤ 3 /\ Forall (fun s => Forall (fun i => 0 ≤ i < 3) (feature s))
              [mkSample [2; 0; 2] 1 "train"]) /\
  exists out, cell11 3 "guo_icu" [mkSample [2; 0; 2] 1 "train"] g0 = Ok out /\
    cell11 3 "guo_icu" [mkSample [0; 2] 1 "train"] g0 = Ok out /\
    Forall (Forall (fun v => v = 0 \/ v = 1)) (X out).
Proof.
  assert (0 ≤ 3) as H3 by lia.
  assert (Forall (fun s => Forall (fun i => 0 ≤ i < 3) (feature s))
            [mkSample [2; 0; 2] 1 "train"]) as Hall.
  { repeat constructor; cbn; lia. }
  split; [split; assumption|].
  destruct (entries_binary_duplicates_absorbed 3 "guo_icu"
              [mkSample [2; 0; 2] 1 "train"] g0) as [Hbin Hdup].
  destruct (Hdup H3 Hall) as (out & Hrun & Hrun').
  exists out. split; [exact Hrun|]. split; [exact Hrun'|]. exact (Hbin out Hrun).
Defined.

(** * Further properties of the cells *)

(** ** When cell 11 completes, and what it raises *)

Lemma rows_of_completes n ss :
  completes n ss -> rows_of n ss = Ok (map (fun s => row_of n (feature s)) ss).
Proof.
  intros [[-> | Hn] Hvalid]; [reflexivity|]. apply rows_of_valid; assumption.
Qed.

Lemma rows_of_Ok_completes n ss rows : rows_of n ss = Ok rows -> completes n ss.
Proof.
  intros H. split; [|apply (rows_of_Ok_inv _ _ _ H)].
  destruct ss as [|s ss]; [left; reflexivity|]. right.
  destruct (Z_lt_le_dec n 0) as [Hn|Hn]; [|exact Hn].
  rewrite (rows_of_negative _ _ _ Hn) in H. discriminate.
Qed.

Lemma cell11_completes n task ss g :
  completes n ss ->
  cell11 n task ss g = Ok (outputs task (map (fun s => row_of n (feature s)) ss) ss).
Proof. intros Hc. rewrite cell11_eq, (rows_of_completes _ _ Hc). reflexivity. Qed.

Lemma cell11_Ok_inv n task ss g out :
  cell11 n task ss g = Ok out ->
  completes n ss /\ out = outputs task (map (fun s => row_of n (feature s)) ss) ss.
Proof.
  intros H. apply cell11_Ok in H. destruct H as (rows & Hrows & ->).
  split; [exact (rows_of_Ok_completes _ _ _ Hrows)|].
  apply rows_of_Ok_inv in Hrows. destruct Hrows as [_ ->]. reflexivity.
Qed.

Lemma Forall_valid_sample_dec n ss :
  {Forall (valid_sample n) ss} + {~ Forall (valid_sample n) ss}.
Proof. apply Forall_dec. intros s. apply Forall_valid_index_dec. Qed.

(** X1. No run of cell 11 completes on input it should not see: whenever
    the cell completes, there is no sample or the size is not negative, and
    every feature index [i] of every sample satisfies [-n <= i < n]. *)
Theorem cell11_completed_input n task ss g out :
  cell11 n task ss g = Ok out ->
  (ss = [] \/ 0 ≤ n) /\ Forall (fun s => Forall (fun i => - n ≤ i < n) (feature s)) ss.
Proof. intros Hout. apply cell11_Ok_inv in Hout. exact (proj1 Hout). Qed.

Lemma cell11_completed_input_witness :
  exists out, cell11 3 "guo_icu" (scenario ++ [mkSample [-3; 2] 1 "val"]) g0 = Ok out /\
    Forall (fun s => Forall (fun i => - 3 ≤ i < 3) (feature s))
      (scenario ++ [mkSample [-3; 2] 1 "val"]).
Proof.
  eexists. split; [reflexivity|].
  exact (proj2 (cell11_completed_input 3 "guo_icu"
                  (scenario ++ [mkSample [-3; 2] 1 "val"]) g0 _ eq_refl)).
Defined.

(** X2. Where the exceptions of cell 11 come from. With a negative size
    and at least one sample the cell raises the ValueError of [np.zeros],
    whatever the feature indices. An out-of-bounds IndexError is raised only
    for a size [n] that is not negative, and names the axis size [n] and a
    feature index [i >= n] or [i < -n] of some sample. The boolean-mask
    IndexError is never raised: the masks always have the length of the
    arrays they select from. *)
Theorem cell11_exception_sources n task ss g :
  (n < 0 -> ss <> [] -> cell11 n task ss g = Raise ValueError_negative_dimensions) /\
  (forall i size, cell11 n task ss g = Raise (IndexError_out_of_bounds i size) ->
     size = n /\ 0 ≤ n /\
     exists s, s ∈ ss /\ i ∈ feature s /\ (i < - n \/ n ≤ i)) /\
  (forall size mask_size,
     cell11 n task ss g <> Raise (IndexError_boolean_mismatch size mask_size)).
Proof.
  assert (n < 0 -> ss <> [] -> cell11 n task ss g = Raise ValueError_negative_dimensions)
    as Hneg.
  { intros Hn Hne. destruct ss as [|s ss]; [contradiction|].
    rewrite cell11_eq, (rows_of_negative _ _ _ Hn). reflexivity. }
  assert (forall e, cell11 n task ss g = Raise e ->
            e = ValueError_negative_dimensions \/
            (0 ≤ n /\ exists s i, s ∈ ss /\ i ∈ feature s /\ (i < - n \/ n ≤ i) /\
                                  e = IndexError_out_of_bounds i n)) as Hcases.
  { intros e He. destruct (Z_lt_le_dec n 0) as [Hn|Hn].
    - left. destruct ss as [|s ss].
      + rewrite cell11_eq in He. discriminate.
      + rewrite Hneg in He by (assumption || discriminate). congruence.
    - right. split; [exact Hn|].
      destruct (Forall_valid_sample_dec n ss) as [Hvalid|Hbad].
      + rewrite cell11_completes in He by (split; [right|]; assumption). discriminate.
      + destruct (rows_of_invalid n Hn ss Hbad) as (s & i & Hs & Hi & Hinv & Heq).
        rewrite cell11_eq, Heq in He. injection He as <-.
        exists s, i. repeat split; try assumption. unfold valid_index in Hinv. lia. }
  split; [exact Hneg|]. split.
  - intros i size He. destruct (Hcases _ He) as [Heq | (Hn & s & i' & Hs & Hi & Hbad & Heq)];
      [discriminate|].
    injection Heq as -> ->. split; [reflexivity|]. split; [exact Hn|].
    exists s. auto.
  - intros size mask_size He.
    destruct (Hcases _ He) as [Heq | (_ & s & i & _ & _ & _ & Heq)]; discriminate.
Qed.

Lemma cell11_exception_sources_witness :
  (-1 < 0 /\ scenario <> []) /\
  cell11 (-1) "guo_icu" scenario g0 = Raise ValueError_negative_dimensions /\
  cell11 2 "guo_icu" scenario g0 = Raise (IndexError_out_of_bounds 2 2) /\
  (0 ≤ 2 /\ exists s, s ∈ scenario /\ 2 ∈ feature s /\ (2 < - 2 \/ 2 ≤ 2)).
Proof.
  assert (-1 < 0) as Hn by lia.
  assert (scenario <> []) as Hne by discriminate.
  split; [split; assumption|]. split.
  - exact (proj1 (cell11_exception_sources (-1) "guo_icu" scenario g0) Hn Hne).
  - split; [reflexivity|].
    destruct (proj1 (proj2 (cell11_exception_sources 2 "guo_icu" scenario g0))
                2 2 eq_refl) as (_ & H0 & Hex).
    split; [exact H0 | exact Hex].
Defined.

(** ** The first index out of bounds *)

Lemma check_indices_first_invalid size pre i post :
  Forall (valid_index size) pre -> ~ valid_index size i ->
  np.check_indices size (pre ++ i :: post) = Raise (IndexError_out_of_bounds i size).
Proof.
  intros Hpre Hi. induction Hpre as [|j pre Hj _ IH]; cbn [app np.check_indices].
  - rewrite (check_index_invalid _ _ Hi). reflexivity.
  - rewrite (check_index_valid _ _ Hj), IH. reflexivity.
Qed.

Lemma rows_of_app n ss1 ss2 :
  rows_of n (ss1 ++ ss2)
  = r1 ← rows_of n ss1; r2 ← rows_of n ss2; Ok (r1 ++ r2).
Proof.
  induction ss1 as [|s ss1 IH]; cbn [app rows_of].
  - destruct (rows_of n ss2); reflexivity.
  - destruct (multi_hot n (feature s)) as [r|e]; [|reflexivity].
    cbn [mbind res_bind]. rewrite IH.
    destruct (rows_of n ss1) as [r1|e]; [|reflexivity]. cbn [mbind res_bind].
    destruct (rows_of n ss2) as [r2|e]; reflexivity.
Qed.

(** X3. The cell stops at the first sample with an index out of bounds and
    reports the first such index of that sample; the indices and samples
    after it play no part. *)
Theorem first_invalid_index_reported n task ss1 s ss2 g pre i post :
  0 ≤ n ->
  Forall (fun s' => Forall (fun j => - n ≤ j < n) (feature s')) ss1 ->
  feature s = pre ++ i :: post ->
  Forall (fun j => - n ≤ j < n) pre ->
  i < - n \/ n ≤ i ->
  cell11 n task (ss1 ++ s :: ss2) g = Raise (IndexError_out_of_bounds i n).
Proof.
  intros Hn Hss1 Hs Hpre Hi.
  rewrite cell11_eq, rows_of_app, (rows_of_valid n Hn ss1 Hss1).
  cbn [mbind res_bind rows_of].
  rewrite (multi_hot_unfold n Hn), Hs, (check_indices_first_invalid n pre i post).
  - reflexivity.
  - exact Hpre.
  - unfold valid_index. lia.
Qed.

Lemma first_invalid_index_reported_witness :
  cell11 3 "guo_icu"
    (scenario ++ mkSample [1; -4; 7] 0 "val" :: [mkSample [9] 1 "test"]) g0
  = Raise (IndexError_out_of_bounds (-4) 3).
Proof.
  apply (first_invalid_index_reported 3 "guo_icu" scenario
           (mkSample [1; -4; 7] 0 "val") [mkSample [9] 1 "test"] g0 [1] (-4) [7]).
  - lia.
  - exact scenario_valid.
  - reflexivity.
  - repeat constructor; lia.
  - left. lia.
Defined.

(** ** Partitions as sub-sequences of the samples *)

Lemma select_map_with_tag {B : Type} (f : Sample -> B) name ss :
  np.select (np.eq (map split ss) name) (map f ss) = map f (with_tag name ss).
Proof.
  unfold with_tag. induction ss as [|s ss IH]; [reflexivity|].
  cbn [map np.eq np.select]. rewrite filter_cons.
  fold (np.eq (map split ss) name). rewrite IH.
  case_bool_decide; case_decide; try contradiction; reflexivity.
Qed.

Lemma outputs_partitions task rows ss (f : Sample -> list Z) name :
  rows = map f ss ->
  np.select (np.eq (map split ss) name) rows = map f (with_tag name ss) /\
  np.select (np.eq (map split ss) name) (map (threshold task) (map label ss))
  = map (fun s => threshold task (label s)) (with_tag name ss).
Proof.
  intros ->. split; [apply select_map_with_tag|].
  rewrite map_map. apply (select_map_with_tag (fun s => threshold task (label s))).
Qed.

Lemma completes_with_tag n name ss : completes n ss -> completes n (with_tag name ss).
Proof.
  intros [Hn Hvalid]. split.
  - destruct Hn as [-> | Hn]; [left; reflexivity | right; exact Hn].
  - rewrite Forall_forall in Hvalid |- *. intros s Hs.
    apply list_elem_of_filter in Hs. apply Hvalid, Hs.
Qed.

Lemma completes_app n ss1 ss2 :
  completes n ss1 -> completes n ss2 -> completes n (ss1 ++ ss2).
Proof.
  intros [Hn1 Hv1] [Hn2 Hv2]. split; [|apply Forall_app; split; assumption].
  destruct Hn1 as [-> | Hn1]; [|right; exact Hn1].
  destruct Hn2 as [-> | Hn2]; [left; reflexivity | right; exact Hn2].
Qed.

(** X4. When the cell completes, each partition is what the cell builds
    from the samples carrying the partition's tag alone: the run on those
    samples, in their order, completes with [X] and [y] equal to the
    partition's matrix and labels. *)
Theorem partition_is_run_on_tagged n task ss g out :
  cell11 n task ss g = Ok out ->
  (exists o, cell11 n task (with_tag "train" ss) g = Ok o /\
             X o = X_train out /\ y o = y_train out) /\
  (exists o, cell11 n task (with_tag "val" ss) g = Ok o /\
             X o = X_val out /\ y o = y_val out) /\
  (exists o, cell11 n task (with_tag "test" ss) g = Ok o /\
             X o = X_test out /\ y o = y_test out).
Proof.
  intros Hout. apply cell11_Ok_inv in Hout. destruct Hout as [Hc ->].
  assert (forall name,
    exists o, cell11 n task (with_tag name ss) g = Ok o /\
      X o = np.select (np.eq (map split ss) name) (map (fun s => row_of n (feature s)) ss) /\
      y o = np.select (np.eq (map split ss) name) (map (threshold task) (map label ss)))
    as Hpart.
  { intros name. eexists. split; [apply cell11_completes, completes_with_tag, Hc|].
    destruct (outputs_partitions task _ ss (fun s => row_of n (feature s)) name eq_refl)
      as [-> ->].
    cbn [outputs X y]. rewrite map_map. split; reflexivity. }
  cbn [outputs X_train y_train X_val y_val X_test y_test].
  repeat split; apply Hpart.
Qed.

Lemma partition_is_run_on_tagged_witness :
  exists out o, cell11 3 "lab_anemia" scenario g0 = Ok out /\
    cell11 3 "lab_anemia" (with_tag "train" scenario) g0 = Ok o /\
    X o = X_train out /\ y o = y_train out.
Proof.
  eexists.
  destruct (partition_is_run_on_tagged 3 "lab_anemia" scenario g0 _ eq_refl)
    as ((o & Hrun & HX & Hy) & _).
  exists o. split; [reflexivity|]. split; [exact Hrun|]. split; [exact HX | exact Hy].
Defined.

Lemma with_tag_app name ss1 ss2 :
  with_tag name (ss1 ++ ss2) = with_tag name ss1 ++ with_tag name ss2.
Proof. apply filter_app. Qed.

Lemma outputs_app task (f : Sample -> list Z) ss1 ss2 :
  let o1 := outputs task (map f ss1) ss1 in
  let o2 := outputs task (map f ss2) ss2 in
  outputs task (map f (ss1 ++ ss2)) (ss1 ++ ss2)
  = mkGlobals (X o1 ++ X o2) (y o1 ++ y o2) (splits o1 ++ splits o2)
      (X_train o1 ++ X_train o2) (y_train o1 ++ y_train o2)
      (X_val o1 ++ X_val o2) (y_val o1 ++ y_val o2)
      (X_test o1 ++ X_test o2) (y_test o1 ++ y_test o2).
Proof.
  cbn zeta. unfold outputs.
  cbn [X y splits X_train y_train X_val y_val X_test y_test].
  pose proof (fun ss name => outputs_partitions task _ ss f name eq_refl) as Hp.
  destruct (Hp (ss1 ++ ss2) "train") as [-> ->].
  destruct (Hp (ss1 ++ ss2) "val") as [-> ->].
  destruct (Hp (ss1 ++ ss2) "test") as [-> ->].
  destruct (Hp ss1 "train") as [-> ->]. destruct (Hp ss1 "val") as [-> ->].
  destruct (Hp ss1 "test") as [-> ->].
  destruct (Hp ss2 "train") as [-> ->]. destruct (Hp ss2 "val") as [-> ->].
  destruct (Hp ss2 "test") as [-> ->].
  rewrite !with_tag_app, !map_app. reflexivity.
Qed.

(** X5. The cell works sample by sample: when it completes on [ss1] and on
    [ss2] it completes on [ss1 ++ ss2], and each of its nine variables is the
    concatenation of the two runs' values; when it raises on [ss1] it raises
    the same exception on [ss1 ++ ss2]. *)
Theorem run_on_concatenation n task ss1 ss2 g :
  (forall o1 o2,
     cell11 n task ss1 g = Ok o1 -> cell11 n task ss2 g = Ok o2 ->
     cell11 n task (ss1 ++ ss2) g
     = Ok (mkGlobals (X o1 ++ X o2) (y o1 ++ y o2) (splits o1 ++ splits o2)
             (X_train o1 ++ X_train o2) (y_train o1 ++ y_train o2)
             (X_val o1 ++ X_val o2) (y_val o1 ++ y_val o2)
             (X_test o1 ++ X_test o2) (y_test o1 ++ y_test o2))) /\
  (forall e, cell11 n task ss1 g = Raise e -> cell11 n task (ss1 ++ ss2) g = Raise e).
Proof.
  split.
  - intros o1 o2 H1 H2. apply cell11_Ok_inv in H1, H2.
    destruct H1 as [Hc1 ->], H2 as [Hc2 ->].
    rewrite (cell11_completes _ _ _ _ (completes_app _ _ _ Hc1 Hc2)).
    f_equal. apply (outputs_app task (fun s => row_of n (feature s))).
  - intros e He. rewrite cell11_eq in He |- *. rewrite rows_of_app.
    destruct (rows_of n ss1) as [r1|e1]; [discriminate|]. exact He.
Qed.

Lemma run_on_concatenation_witness :
  cell11 3 "lab_anemia" (scenario ++ [mkSample [-1] 3 "val"]) g0
  = Ok (mkGlobals [[1; 0; 1]; [0; 1; 0]; [0; 0; 0]; [0; 0; 1]] [0; 1; 0; 1]
          ["train"; "test"; "train"; "val"]
          [[1; 0; 1]; [0; 0; 0]] [0; 0] [[0; 0; 1]] [1] [[0; 1; 0]] [1]) /\
  cell11 3 "lab_anemia" ([mkSample [3] 0 "val"] ++ scenario) g0
  = Raise (IndexError_out_of_bounds 3 3).
Proof.
  split.
  - exact (proj1 (run_on_concatenation 3 "lab_anemia" scenario [mkSample [-1] 3 "val"] g0)
             _ _ eq_refl eq_refl).
  - exact (proj2 (run_on_concatenation 3 "lab_anemia" [mkSample [3] 0 "val"] scenario g0)
             _ eq_refl).
Defined.

(** ** Shapes and sizes of the partitions *)

Lemma Forall_map_row_of n (ss : list Sample) :
  Forall (fun row => length row = Z.to_nat n) (map (fun s => row_of n (feature s)) ss).
Proof.
  change (map ?f ?l) with (f <$> l). apply Forall_fmap, Forall_true.
  intros s. apply length_row_of.
Qed.

(** X6. When the cell completes, every row of [X] and of the three
    partition matrices has [num_features] columns, and each partition has as
    many rows as labels: these are the shapes the cell prints and the trainer
    receives. *)
Theorem partition_shapes n task ss g out :
  cell11 n task ss g = Ok out ->
  (Forall (fun row => length row = Z.to_nat n) (X out) /\
   Forall (fun row => length row = Z.to_nat n) (X_train out) /\
   Forall (fun row => length row = Z.to_nat n) (X_val out) /\
   Forall (fun row => length row = Z.to_nat n) (X_test out)) /\
  length (X_train out) = length (y_train out) /\
  length (X_val out) = length (y_val out) /\
  length (X_test out) = length (y_test out).
Proof.
  intros Hout. apply cell11_Ok_inv in Hout. destruct Hout as [_ ->].
  cbn [outputs X X_train y_train X_val y_val X_test y_test].
  pose proof (fun name =>
    outputs_partitions task _ ss (fun s => row_of n (feature s)) name eq_refl) as Hp.
  destruct (Hp "train") as [-> ->]. destruct (Hp "val") as [-> ->].
  destruct (Hp "test") as [-> ->].
  rewrite !length_map. repeat split; apply Forall_map_row_of.
Qed.

Lemma partition_shapes_witness :
  exists out, cell11 3 "lab_anemia" scenario g0 = Ok out /\
    Forall (fun row => length row = 3%nat) (X_train out) /\
    length (X_train out) = length (y_train out).
Proof.
  eexists. split; [reflexivity|].
  destruct (partition_shapes 3 "lab_anemia" scenario g0 _ eq_refl)
    as ((_ & Htrain & _) & Hlen & _).
  split; [exact Htrain | exact Hlen].
Defined.

Lemma tag_counts ss :
  (length (with_tag "train" ss) + length (with_tag "val" ss)
   + length (with_tag "test" ss) + length (untagged ss) = length ss)%nat.
Proof.
  unfold with_tag, untagged. induction ss as [|s ss IH]; [reflexivity|].
  rewrite !filter_cons.
  repeat case_decide; cbn [length]; try lia;
    try (exfalso; intuition congruence).
Qed.

(** X7. When the cell completes, each partition has one row per sample
    carrying its tag, and the rows that reach no partition are exactly those
    of the samples whose tag is none of "train", "val", "test": the three
    partition sizes and the number of such samples add up to the number of
    samples. In particular a partition is empty exactly when no sample
    carries its tag. *)
Theorem partition_sizes n task ss g out :
  cell11 n task ss g = Ok out ->
  length (X_train out) = length (with_tag "train" ss) /\
  length (X_val out) = length (with_tag "val" ss) /\
  length (X_test out) = length (with_tag "test" ss) /\
  (length (X_train out) + length (X_val out) + length (X_test out)
   + length (untagged ss) = length ss)%nat /\
  (X_train out = [] <-> forall s, s ∈ ss -> split s <> "train") /\
  (X_val out = [] <-> forall s, s ∈ ss -> split s <> "val") /\
  (X_test out = [] <-> forall s, s ∈ ss -> split s <> "test").
Proof.
  intros Hout. apply cell11_Ok_inv in Hout. destruct Hout as [_ ->].
  cbn [outputs X_train X_val X_test].
  rewrite !(select_map_with_tag (fun s => row_of n (feature s))).
  rewrite !length_map.
  assert (forall name,
    map (fun s => row_of n (feature s)) (with_tag name ss) = []
    <-> forall s, s ∈ ss -> split s <> name) as Hempty.
  { intros name. split.
    - intros Hnil s Hs Htag. apply map_eq_nil in Hnil.
      assert (s ∈ with_tag name ss) as Hin by (apply list_elem_of_filter; auto).
      rewrite Hnil in Hin. apply elem_of_nil in Hin. exact Hin.
    - intros Hnone. destruct (with_tag name ss) as [|s l] eqn:Hf; [reflexivity|].
      assert (s ∈ with_tag name ss) as Hin by (rewrite Hf; left).
      apply list_elem_of_filter in Hin. destruct Hin as [Htag Hs].
      destruct (Hnone s Hs Htag). }
  repeat split; try reflexivity; try apply Hempty. apply tag_counts.
Qed.

Lemma partition_sizes_witness :
  exists out,
    cell11 3 "guo_icu" (scenario ++ [mkSample [] 1 "held_out"]) g0 = Ok out /\
    (length (X_train out) + length (X_val out) + length (X_test out) + 1 = 4)%nat /\
    X_val out = [].
Proof.
  eexists. split; [reflexivity|].
  destruct (partition_sizes 3 "guo_icu" (scenario ++ [mkSample [] 1 "held_out"]) g0
              _ eq_refl) as (_ & _ & _ & Hsum & _ & Hval & _).
  split; [exact Hsum|]. apply Hval. intros s Hs.
  repeat (apply elem_of_cons in Hs; destruct Hs as [-> | Hs]; [discriminate|]).
  apply elem_of_nil in Hs. contradiction.
Defined.

(** ** Labels of the partitions *)

Lemma threshold_le_1 task l : String.prefix "lab_" task = true -> threshold task l ≤ 1.
Proof. intros Hp. unfold threshold. rewrite Hp. case_bool_decide; lia. Qed.

Lemma threshold_binary task l :
  String.prefix "lab_" task = true -> 0 ≤ l ->
  threshold task l = 0 \/ threshold task l = 1.
Proof. intros Hp Hl. unfold threshold. rewrite Hp. case_bool_decide; [right | left]; lia. Qed.

Lemma Forall_map_with_tag (P : Z -> Prop) (f : Sample -> Z) name ss :
  Forall (fun s => P (f s)) ss -> Forall P (map f (with_tag name ss)).
Proof.
  intros Hall. change (map ?f ?l) with (f <$> l). apply Forall_fmap.
  rewrite Forall_forall in Hall |- *. intros s Hs.
  apply list_elem_of_filter in Hs. apply Hall, Hs.
Qed.

(** X8. For a task whose name starts with "lab_", when the cell completes
    no label of [y] or of a partition exceeds 1; and when the input labels
    are not negative, every label of [y] and of the three partitions is 0 or
    1. *)
Theorem lab_labels_binary n task ss g out :
  cell11 n task ss g = Ok out ->
  String.prefix "lab_" task = true ->
  (Forall (fun v => v ≤ 1) (y out) /\ Forall (fun v => v ≤ 1) (y_train out) /\
   Forall (fun v => v ≤ 1) (y_val out) /\ Forall (fun v => v ≤ 1) (y_test out)) /\
  (Forall (fun s => 0 ≤ label s) ss ->
   Forall (fun v => v = 0 \/ v = 1) (y out) /\
   Forall (fun v => v = 0 \/ v = 1) (y_train out) /\
   Forall (fun v => v = 0 \/ v = 1) (y_val out) /\
   Forall (fun v => v = 0 \/ v = 1) (y_test out)).
Proof.
  intros Hout Hp. apply cell11_Ok_inv in Hout. destruct Hout as [_ ->].
  cbn [outputs y y_train y_val y_test].
  pose proof (fun name =>
    outputs_partitions task _ ss (fun s => row_of n (feature s)) name eq_refl) as Hparts.
  destruct (Hparts "train") as [_ ->]. destruct (Hparts "val") as [_ ->].
  destruct (Hparts "test") as [_ ->]. rewrite map_map.
  assert (Forall (fun s => threshold task (label s) ≤ 1) ss) as Hle.
  { apply Forall_true. intros s. apply threshold_le_1, Hp. }
  split.
  - repeat split; try (apply Forall_map_with_tag; exact Hle).
    change (map ?f ?l) with (f <$> l). apply Forall_fmap. exact Hle.
  - intros Hnonneg.
    assert (Forall (fun s => threshold task (label s) = 0 \/ threshold task (label s) = 1) ss)
      as Hbin.
    { eapply Forall_impl; [exact Hnonneg|]. intros s. apply threshold_binary, Hp. }
    repeat split; try (apply (Forall_map_with_tag (fun v => v = 0 \/ v = 1)); exact Hbin).
    change (map ?f ?l) with (f <$> l). apply Forall_fmap. exact Hbin.
Qed.

Lemma lab_labels_binary_witness :
  exists out, cell11 3 "lab_anemia" scenario g0 = Ok out /\
    Forall (fun s => 0 ≤ label s) scenario /\
    Forall (fun v => v = 0 \/ v = 1) (y_test out).
Proof.
  assert (Forall (fun s => 0 ≤ label s) scenario) as Hall.
  { unfold scenario. repeat constructor; cbn; lia. }
  eexists. split; [reflexivity|]. split; [exact Hall|].
  destruct (lab_labels_binary 3 "lab_anemia" scenario g0 _ eq_refl eq_refl)
    as (_ & Hbin).
  destruct (Hbin Hall) as (_ & _ & _ & Htest). exact Htest.
Defined.

(** ** The order of the samples *)

Lemma zip_map_map {A B C : Type} (f : A -> B) (h : A -> C) (l : list A) :
  zip (map f l) (map h l) = map (fun a => (f a, h a)) l.
Proof. induction l as [|a l IH]; cbn; [reflexivity|]. rewrite <- IH. reflexivity. Qed.

Lemma completes_Permutation n ss ss' : ss ≡ₚ ss' -> completes n ss -> completes n ss'.
Proof.
  intros Hperm [Hn Hvalid]. split; [|rewrite <- Hperm; exact Hvalid].
  destruct Hn as [-> | Hn]; [|right; exact Hn].
  left. symmetry. apply Permutation_nil_l. exact Hperm.
Qed.

Lemma with_tag_Permutation name ss ss' :
  ss ≡ₚ ss' -> with_tag name ss ≡ₚ with_tag name ss'.
Proof. intros Hperm. unfold with_tag. rewrite Hperm. reflexivity. Qed.

Lemma map_Permutation {A B : Type} (f : A -> B) (l l' : list A) :
  l ≡ₚ l' -> map f l ≡ₚ map f l'.
Proof. intros H. change (map ?f ?l) with (f <$> l). rewrite H. reflexivity. Qed.

(** X9. Reordering the samples reorders the result and nothing more: when
    the cell completes on a sequence it completes on each of its
    permutations, and the rows of [X] with their labels and tags, and the
    rows of each partition with their labels, are the same up to order; when
    it raises on a sequence it raises on each of its permutations. *)
Theorem sample_order_irrelevant n task ss ss' g :
  ss ≡ₚ ss' ->
  (forall out, cell11 n task ss g = Ok out ->
     exists out', cell11 n task ss' g = Ok out' /\
       zip (X out) (zip (y out) (splits out))
         ≡ₚ zip (X out') (zip (y out') (splits out')) /\
       zip (X_train out) (y_train out) ≡ₚ zip (X_train out') (y_train out') /\
       zip (X_val out) (y_val out) ≡ₚ zip (X_val out') (y_val out') /\
       zip (X_test out) (y_test out) ≡ₚ zip (X_test out') (y_test out')) /\
  (forall e, cell11 n task ss g = Raise e -> exists e', cell11 n task ss' g = Raise e').
Proof.
  intros Hperm. split.
  - intros out Hout. apply cell11_Ok_inv in Hout. destruct Hout as [Hc ->].
    eexists. split; [apply cell11_completes, (completes_Permutation _ _ _ Hperm Hc)|].
    cbn [outputs X y splits X_train y_train X_val y_val X_test y_test].
    pose proof (fun l name =>
      outputs_partitions task _ l (fun s => row_of n (feature s)) name eq_refl) as Hp.
    destruct (Hp ss "train") as [-> ->]. destruct (Hp ss "val") as [-> ->].
    destruct (Hp ss "test") as [-> ->]. destruct (Hp ss' "train") as [-> ->].
    destruct (Hp ss' "val") as [-> ->]. destruct (Hp ss' "test") as [-> ->].
    rewrite !(map_map label), !zip_map_map.
    repeat split; apply map_Permutation; try apply with_tag_Permutation; exact Hperm.
  - intros e He. destruct (cell11 n task ss' g) as [out'|e'] eqn:Hrun'; [|eauto].
    apply cell11_Ok_inv in Hrun'. destruct Hrun' as [Hc' _].
    symmetry in Hperm.
    rewrite (cell11_completes _ _ _ _ (completes_Permutation _ _ _ Hperm Hc')) in He.
    discriminate.
Qed.

Lemma sample_order_irrelevant_witness :
  exists out out',
    cell11 3 "lab_anemia" scenario g0 = Ok out /\
    cell11 3 "lab_anemia" (rev scenario) g0 = Ok out' /\
    zip (X_train out) (y_train out) ≡ₚ zip (X_train out') (y_train out').
Proof.
  assert (scenario ≡ₚ rev scenario) as Hperm.
  { unfold scenario. cbn. apply Permutation_sym, Permutation_rev. }
  eexists.
  destruct (proj1 (sample_order_irrelevant 3 "lab_anemia" scenario (rev scenario) g0 Hperm)
              _ eq_refl) as (out' & Hrun' & _ & Htrain & _).
  exists out'. split; [reflexivity|]. split; [exact Hrun' | exact Htrain].
Defined.

(** ** The columns a sample denotes *)

Lemma row_of_positions_ext n (idx1 idx2 : list Z) :
  (forall k : nat, k ∈ map (position n) idx1 <-> k ∈ map (position n) idx2) ->
  row_of n idx1 = row_of n idx2.
Proof.
  intros Hsame. apply list_eq. intros k.
  destruct (decide (k < Z.to_nat n)%nat) as [Hk|Hk].
  - rewrite !lookup_row_of by exact Hk.
    rewrite (bool_decide_ext _ _ (Hsame k)). reflexivity.
  - rewrite !lookup_ge_None_2; [reflexivity | |]; rewrite length_row_of; lia.
Qed.

Lemma outputs_ext task rows ss1 ss2 :
  map label ss1 = map label ss2 -> map split ss1 = map split ss2 ->
  outputs task rows ss1 = outputs task rows ss2.
Proof. intros Hl Hs. unfold outputs. rewrite Hl, Hs. reflexivity. Qed.

(** X10. The result depends on a sample's feature indices only through the
    set of columns they denote: two runs that complete on sequences whose
    samples agree, position by position, on label, tag and denoted columns
    (whatever the order of the indices, their repetitions, or the use of
    [i - n] for column [i]) give the same variables. *)
Theorem same_columns_same_result n task ss1 ss2 g o1 o2 :
  Forall2 (same_columns n) ss1 ss2 ->
  cell11 n task ss1 g = Ok o1 -> cell11 n task ss2 g = Ok o2 ->
  o1 = o2.
Proof.
  intros Hsame H1 H2. apply cell11_Ok_inv in H1, H2.
  destruct H1 as [_ ->], H2 as [_ ->].
  assert (map (fun s => row_of n (feature s)) ss1 = map (fun s => row_of n (feature s)) ss2
          /\ map label ss1 = map label ss2 /\ map split ss1 = map split ss2)
    as (Hrows & Hlabels & Htags).
  { induction Hsame as [|s1 s2 l1 l2 (Hl & Hs & Hcols) _ (IH1 & IH2 & IH3)];
      [repeat split|].
    cbn [map]. rewrite IH1, IH2, IH3, Hl, Hs, (row_of_positions_ext n _ _ Hcols).
    repeat split. }
  rewrite Hrows. apply outputs_ext; assumption.
Qed.

Lemma same_columns_same_result_witness :
  Forall2 (same_columns 3) [mkSample [2; 0; 2] 1 "train"] [mkSample [0; -1] 1 "train"] /\
  cell11 3 "guo_icu" [mkSample [2; 0; 2] 1 "train"] g0
  = cell11 3 "guo_icu" [mkSample [0; -1] 1 "train"] g0.
Proof.
  assert (Forall2 (same_columns 3)
            [mkSample [2; 0; 2] 1 "train"] [mkSample [0; -1] 1 "train"]) as Hsame.
  { constructor; [|constructor]. split; [reflexivity|]. split; [reflexivity|].
    intros k. cbn. rewrite !elem_of_cons, !elem_of_nil. intuition. }
  split; [exact Hsame|].
  assert (exists o1, cell11 3 "guo_icu" [mkSample [2; 0; 2] 1 "train"] g0 = Ok o1)
    as [o1 H1] by (eexists; reflexivity).
  assert (exists o2, cell11 3 "guo_icu" [mkSample [0; -1] 1 "train"] g0 = Ok o2)
    as [o2 H2] by (eexists; reflexivity).
  rewrite H1, H2. f_equal.
  exact (same_columns_same_result 3 "guo_icu" _ _ g0 o1 o2 Hsame H1 H2).
Defined.

(** ** The number of ones in a row *)

Lemma row_of_as_map n idx :
  row_of n idx
  = map (fun k : nat => if bool_decide (k ∈ map (position n) idx) then 1 else 0)
        (seq 0 (Z.to_nat n)).
Proof.
  apply list_eq. intros k. change (map ?f (seq ?a ?b)) with (f <$> seq a b).
  rewrite list_lookup_fmap.
  destruct (decide (k < Z.to_nat n)%nat) as [Hk|Hk].
  - rewrite (lookup_row_of _ _ _ Hk), (lookup_seq_lt _ _ _ Hk). reflexivity.
  - rewrite lookup_ge_None_2 by (rewrite length_row_of; lia).
    rewrite lookup_seq_ge by lia. reflexivity.
Qed.

Lemma row_sum_indicator (Q : nat -> Prop) `{!forall k, Decision (Q k)} (l : list nat) :
  row_sum (map (fun k => if bool_decide (Q k) then 1 else 0) l)
  = Z.of_nat (length (filter Q l)).
Proof.
  unfold row_sum. induction l as [|k l IH]; [reflexivity|].
  cbn [map foldr]. rewrite IH, filter_cons.
  case_bool_decide; case_decide; try contradiction; cbn [length]; lia.
Qed.

Lemma row_sum_row_of n idx :
  Forall (valid_index n) idx ->
  row_sum (row_of n idx) = Z.of_nat (length (remove_dups (map (position n) idx))).
Proof.
  intros Hvalid. rewrite row_of_as_map.
  rewrite (row_sum_indicator (fun k => k ∈ map (position n) idx)).
  f_equal. apply Permutation_length, NoDup_Permutation.
  - apply NoDup_filter, NoDup_seq.
  - apply NoDup_remove_dups.
  - intros k. rewrite list_elem_of_filter, elem_of_remove_dups, elem_of_seq.
    split; [tauto|]. intros Hk. split; [exact Hk|]. split; [lia|].
    change (map ?f ?l) with (f <$> l) in Hk. apply list_elem_of_fmap in Hk.
    destruct Hk as (i & -> & Hi). rewrite Forall_forall in Hvalid.
    cbn. apply position_lt, Hvalid, Hi.
Qed.

Lemma length_remove_dups_positions n idx :
  Forall (fun i => 0 ≤ i < n) idx ->
  length (remove_dups (map (position n) idx)) = length (remove_dups idx).
Proof.
  intros Hall. rewrite Forall_forall in Hall.
  rewrite <- (length_fmap (position n) (remove_dups idx)).
  apply Permutation_length, NoDup_Permutation.
  - apply NoDup_remove_dups.
  - apply NoDup_fmap_2_strong; [|apply NoDup_remove_dups].
    intros i j Hi Hj Heq.
    apply elem_of_remove_dups, Hall in Hi. apply elem_of_remove_dups, Hall in Hj.
    rewrite (position_in_range n i Hi), (position_in_range n j Hj) in Heq.
    apply Z2Nat.inj in Heq; [exact Heq | lia | lia].
  - intros k. rewrite elem_of_remove_dups. change (map ?f ?l) with (f <$> l).
    rewrite !list_elem_of_fmap. split; intros (i & Hk & Hi); exists i;
      (split; [exact Hk | apply elem_of_remove_dups; exact Hi]).
Qed.

(** X11. When the cell completes, the sum of row [k] of [X] is the number
    of distinct columns sample [k]'s feature indices denote; for indices in
    [[0, num_features)] it is the number of distinct feature indices of the
    sample. *)
Theorem row_sum_counts_features n task ss g out k s :
  cell11 n task ss g = Ok out ->
  ss !! k = Some s ->
  exists row, X out !! k = Some row /\
    row_sum row = Z.of_nat (length (remove_dups (map (position n) (feature s)))) /\
    (Forall (fun i => 0 ≤ i < n) (feature s) ->
     row_sum row = Z.of_nat (length (remove_dups (feature s)))).
Proof.
  intros Hout Hk. apply cell11_Ok_inv in Hout. destruct Hout as [[_ Hvalid] ->].
  exists (row_of n (feature s)). cbn [outputs X].
  assert (valid_sample n s) as Hs.
  { rewrite Forall_forall in Hvalid. eapply Hvalid, list_elem_of_lookup_2, Hk. }
  split; [|split].
  - change (map ?f ?l) with (f <$> l). rewrite list_lookup_fmap, Hk. reflexivity.
  - apply row_sum_row_of, Hs.
  - intros Hrange. rewrite (row_sum_row_of _ _ Hs).
    rewrite (length_remove_dups_positions _ _ Hrange). reflexivity.
Qed.

Lemma row_sum_counts_features_witness :
  exists out row,
    cell11 4 "guo_icu" [mkSample [3; 1; 3; 1; 0] 1 "train"] g0 = Ok out /\
    Forall (fun i => 0 ≤ i < 4) [3; 1; 3; 1; 0] /\
    X out !! 0%nat = Some row /\ row_sum row = 3.
Proof.
  assert (Forall (fun i => 0 ≤ i < 4) [3; 1; 3; 1; 0]) as Hrange
    by (repeat constructor; lia).
  eexists.
  destruct (row_sum_counts_features 4 "guo_icu" [mkSample [3; 1; 3; 1; 0] 1 "train"] g0
              _ 0%nat _ eq_refl eq_refl) as (row & Hrow & _ & Hsum).
  exists row. split; [reflexivity|]. split; [exact Hrange|]. split; [exact Hrow|].
  exact (Hsum Hrange).
Defined.

(** ** What an exception leaves in the notebook *)

Lemma for_stmt_app {A : Type} (body : A -> stmt) (l1 l2 : list A) g :
  for_stmt body (l1 ++ l2) g
  = match for_stmt body l1 g with
    | (g', None) => for_stmt body l2 g'
    | (g', Some e) => (g', Some e)
    end.
Proof.
  revert g. induction l1 as [|x l1 IH]; intros g; cbn [app for_stmt]; [reflexivity|].
  destruct (body x g) as [g' [e|]]; [reflexivity | apply IH].
Qed.

Lemma for_stmt_Ok n ss g g' :
  for_each (loop_body n) g ss = Ok g' -> for_stmt (body_stmt n) ss g = (g', None).
Proof.
  revert g. induction ss as [|s ss IH]; intros g; cbn [for_each for_stmt].
  - intros [= ->]. reflexivity.
  - unfold body_stmt at 1. destruct (loop_body n g s) as [g1|e]; [|discriminate].
    cbn [mbind res_bind]. apply IH.
Qed.

Lemma rows_of_Raise_split n ss e :
  rows_of n ss = Raise e ->
  exists ss1 s ss2 rows,
    ss = ss1 ++ s :: ss2 /\ rows_of n ss1 = Ok rows /\
    multi_hot n (feature s) = Raise e.
Proof.
  induction ss as [|s ss IH]; cbn [rows_of]; [discriminate|].
  destruct (multi_hot n (feature s)) as [r|e'] eqn:Hr; cbn [mbind res_bind].
  - destruct (rows_of n ss) as [rs|e''] eqn:Hrs; cbn [mbind res_bind]; [discriminate|].
    intros [= ->]. destruct (IH eq_refl) as (ss1 & s' & ss2 & rows & -> & Hrows & Hs').
    exists (s :: ss1), s', ss2, (r :: rows). split; [reflexivity|].
    split; [|exact Hs']. cbn [rows_of]. rewrite Hr, Hrows. reflexivity.
  - intros [= ->]. exists [], s, ss, []. auto.
Qed.

Lemma after_loop task rows labels tags xt yt xv yv xe ye :
  length rows = length tags -> length labels = length tags ->
  then_stmt arrays_stmt (then_stmt (binarize_stmt task) partitions_stmt)
    (mkGlobals rows labels tags xt yt xv yv xe ye)
  = (let y := map (threshold task) labels in
     mkGlobals rows y tags
       (np.select (np.eq tags "train") rows) (np.select (np.eq tags "train") y)
       (np.select (np.eq tags "val") rows) (np.select (np.eq tags "val") y)
       (np.select (np.eq tags "test") rows) (np.select (np.eq tags "test") y),
     None).
Proof.
  intros HX Hy. pose proof (binarize_eq task labels) as Hbin.
  unfold arrays_stmt, partitions_stmt, binarize_stmt, binarize, then_stmt, assign, skip,
    set_X, set_y, set_splits, np.array in *.
  cbn [X y splits X_train y_train X_val y_val X_test y_test].
  assert (length (map (threshold task) labels) = length tags) as Hy'
    by (rewrite length_map; exact Hy).
  destruct (String.prefix "lab_" task).
  - cbn [X y splits X_train y_train X_val y_val X_test y_test]. rewrite Hbin.
    unfold set_X_train, set_y_train, set_X_val, set_y_val, set_X_test, set_y_test.
    cbn [X y splits X_train y_train X_val y_val X_test y_test].
    repeat (rewrite getitem_mask_eq by congruence;
            cbn [X y splits X_train y_train X_val y_val X_test y_test]).
    reflexivity.
  - injection Hbin as Hbin. rewrite <- Hbin in *.
    unfold set_X_train, set_y_train, set_X_val, set_y_val, set_X_test, set_y_test.
    cbn [X y splits X_train y_train X_val y_val X_test y_test].
    repeat (rewrite getitem_mask_eq by congruence;
            cbn [X y splits X_train y_train X_val y_val X_test y_test]).
    reflexivity.
Qed.

(** X12. The statement-by-statement run of cell 11 ends with the variables
    the cell computes when it completes. When it raises, the exception comes
    from the row of one sample; [X], [y] and [splits] are left as the lists
    of the rows, the labels as read (not thresholded) and the tags of the
    samples before that one, and the six partition variables keep the values
    they had before the run. *)
Theorem exception_leaves_prefix n task ss g :
  (forall out, cell11 n task ss g = Ok out -> run_cell11 n task ss g = (out, None)) /\
  (forall e, cell11 n task ss g = Raise e ->
     exists ss1 s ss2 rows,
       ss = ss1 ++ s :: ss2 /\
       Forall2 (fun s' r => multi_hot n (feature s') = Ok r) ss1 rows /\
       multi_hot n (feature s) = Raise e /\
       run_cell11 n task ss g
       = (mkGlobals rows (map label ss1) (map split ss1)
            (X_train g) (y_train g) (X_val g) (y_val g) (X_test g) (y_test g),
          Some e)).
Proof.
  split.
  - intros out Hout. apply cell11_Ok in Hout. destruct Hout as (rows & Hrows & ->).
    unfold run_cell11. unfold then_stmt at 1 2.
    rewrite (for_stmt_Ok n ss (init_lists g)
               (mkGlobals rows (map label ss) (map split ss)
                  (X_train g) (y_train g) (X_val g) (y_val g) (X_test g) (y_test g))).
    + apply after_loop; rewrite !length_map; [exact (rows_of_length _ _ _ Hrows) | reflexivity].
    + rewrite for_each_loop_body, Hrows. reflexivity.
  - intros e He. rewrite cell11_eq in He.
    destruct (rows_of n ss) as [rows|e'] eqn:Hrows; [discriminate|].
    injection He as ->.
    destruct (rows_of_Raise_split _ _ _ Hrows) as (ss1 & s & ss2 & rows & -> & Hrows1 & Hs).
    exists ss1, s, ss2, rows. split; [reflexivity|].
    split; [apply rows_of_Ok; exact Hrows1|]. split; [exact Hs|].
    unfold run_cell11. unfold then_stmt at 1 2. rewrite for_stmt_app.
    rewrite (for_stmt_Ok n ss1 (init_lists g)
               (mkGlobals rows (map label ss1) (map split ss1)
                  (X_train g) (y_train g) (X_val g) (y_val g) (X_test g) (y_test g)))
      by (rewrite for_each_loop_body, Hrows1; reflexivity).
    cbn [for_stmt]. unfold body_stmt at 1. rewrite loop_body_eq, Hs. reflexivity.
Qed.

Lemma exception_leaves_prefix_witness :
  run_cell11 3 "lab_anemia" scenario g0
  = (mkGlobals [[1; 0; 1]; [0; 1; 0]; [0; 0; 0]] [0; 1; 0] ["train"; "test"; "train"]
       [[1; 0; 1]; [0; 0; 0]] [0; 0] [] [] [[0; 1; 0]] [1], None) /\
  exists ss1 s ss2 rows,
    scenario ++ [mkSample [5] 1 "val"] = ss1 ++ s :: ss2 /\
    multi_hot 3 (feature s) = Raise (IndexError_out_of_bounds 5 3) /\
    run_cell11 3 "lab_anemia" (scenario ++ [mkSample [5] 1 "val"]) g0
    = (mkGlobals rows (map label ss1) (map split ss1) [] [] [] [] [] [],
       Some (IndexError_out_of_bounds 5 3)).
Proof.
  split.
  - exact (proj1 (exception_leaves_prefix 3 "lab_anemia" scenario g0) _ eq_refl).
  - destruct (proj2 (exception_leaves_prefix 3 "lab_anemia"
                       (scenario ++ [mkSample [5] 1 "val"]) g0) _ eq_refl)
      as (ss1 & s & ss2 & rows & Heq & _ & Hs & Hrun).
    exists ss1, s, ss2, rows. split; [exact Heq|]. split; [exact Hs | exact Hrun].
Defined.

(** ** Cell 1 *)

(** X13. After cell 1 the path is in [sys.path]; the entries that were
    there stay, in their order, behind it; running the cell again changes
    nothing; and a [sys.path] without repeated entries stays without. *)
Theorem sys_path_inserted_once pyhealth_path sys_path :
  pyhealth_path ∈ cell1 pyhealth_path sys_path /\
  sys_path `suffix_of` cell1 pyhealth_path sys_path /\
  cell1 pyhealth_path (cell1 pyhealth_path sys_path) = cell1 pyhealth_path sys_path /\
  (pyhealth_path ∉ sys_path -> cell1 pyhealth_path sys_path = pyhealth_path :: sys_path) /\
  (NoDup sys_path -> NoDup (cell1 pyhealth_path sys_path)).
Proof.
  assert (pyhealth_path ∈ cell1 pyhealth_path sys_path) as Hin.
  { unfold cell1. case_bool_decide as Hp; [exact Hp | left]. }
  split; [exact Hin|]. split; [|split; [|split]].
  - unfold cell1. case_bool_decide; [reflexivity | apply suffix_cons_r; reflexivity].
  - unfold cell1 at 1. rewrite bool_decide_eq_true_2 by exact Hin. reflexivity.
  - intros Hout. unfold cell1. rewrite bool_decide_eq_false_2 by exact Hout. reflexivity.
  - intros Hnodup. unfold cell1. case_bool_decide as Hp; [exact Hnodup|].
    apply NoDup_cons. split; assumption.
Qed.

Lemma sys_path_inserted_once_witness :
  (("/home/zw12/PyHealth" ∉ ["/usr/lib/python3.9"; "/home/zw12/PyHealth/examples"])
   /\ NoDup ["/usr/lib/python3.9"; "/home/zw12/PyHealth/examples"]) /\
  cell1 "/home/zw12/PyHealth" ["/usr/lib/python3.9"; "/home/zw12/PyHealth/examples"]
  = ["/home/zw12/PyHealth"; "/usr/lib/python3.9"; "/home/zw12/PyHealth/examples"] /\
  NoDup (cell1 "/home/zw12/PyHealth"
           ["/usr/lib/python3.9"; "/home/zw12/PyHealth/examples"]).
Proof.
  assert ("/home/zw12/PyHealth" ∉ ["/usr/lib/python3.9"; "/home/zw12/PyHealth/examples"])
    as Hout.
  { intros Hin. repeat (apply elem_of_cons in Hin; destruct Hin as [Hin | Hin];
                        [discriminate|]).
    apply elem_of_nil in Hin. exact Hin. }
  assert (NoDup ["/usr/lib/python3.9"; "/home/zw12/PyHealth/examples"]) as Hnodup.
  { apply NoDup_cons. split.
    - intros Hin. apply list_elem_of_singleton in Hin. discriminate.
    - apply NoDup_singleton. }
  destruct (sys_path_inserted_once "/home/zw12/PyHealth"
              ["/usr/lib/python3.9"; "/home/zw12/PyHealth/examples"])
    as (_ & _ & _ & Hins & Hnd).
  split; [split; assumption|]. split; [exact (Hins Hout) | exact (Hnd Hnodup)].
Defined.
